(** * FinSafe fraud detector: a shallow embedding of [credit_card_fraud.py]

    The script is a Streamlit page: it loads two artifacts (a classifier and
    a dictionary of label encoders), shows a form, and on submission builds a
    one-row data frame, encodes it and asks the classifier for a verdict.

    The embedding follows the script top to bottom.  Python exceptions are an
    explicit error result, the page elements and the calls to the libraries
    (joblib, geopy, pandas, scikit-learn, the classifier) are recorded in a
    trace, and the libraries themselves are parameters of the development. *)

From Stdlib Require Import ZArith String List Floats Bool Lia.
From stdpp Require Import base option list gmap strings pretty.

Set Warnings "-inexact-float".

Local Open Scope string_scope.
Local Open Scope Z_scope.
Local Open Scope list_scope.

(** ** Python values and exceptions *)

Module Py.

(** The part of the built-in exception hierarchy the script can meet.
    [StopException] is the one [st.stop()] raises; like
    [KeyboardInterrupt] it derives from [BaseException] only. *)
Inductive exn_class : Type :=
| BaseException
| KeyboardInterrupt
| StopException
| Exception_
| OSError
| FileNotFoundError
| ValueError
| UnicodeError
| LookupError
| KeyError
| IndexError
| TypeError
| AttributeError
| RuntimeError.

Definition exn_class_eqb (c d : exn_class) : bool :=
  match c, d with
  | BaseException, BaseException
  | KeyboardInterrupt, KeyboardInterrupt
  | StopException, StopException
  | Exception_, Exception_
  | OSError, OSError
  | FileNotFoundError, FileNotFoundError
  | ValueError, ValueError
  | UnicodeError, UnicodeError
  | LookupError, LookupError
  | KeyError, KeyError
  | IndexError, IndexError
  | TypeError, TypeError
  | AttributeError, AttributeError
  | RuntimeError, RuntimeError => true
  | _, _ => false
  end.

(** Method resolution order: the class followed by its bases. *)
Definition mro (c : exn_class) : list exn_class :=
  match c with
  | BaseException => [BaseException]
  | KeyboardInterrupt => [KeyboardInterrupt; BaseException]
  | StopException => [StopException; BaseException]
  | Exception_ => [Exception_; BaseException]
  | OSError => [OSError; Exception_; BaseException]
  | FileNotFoundError => [FileNotFoundError; OSError; Exception_; BaseException]
  | ValueError => [ValueError; Exception_; BaseException]
  | UnicodeError => [UnicodeError; ValueError; Exception_; BaseException]
  | LookupError => [LookupError; Exception_; BaseException]
  | KeyError => [KeyError; LookupError; Exception_; BaseException]
  | IndexError => [IndexError; LookupError; Exception_; BaseException]
  | TypeError => [TypeError; Exception_; BaseException]
  | AttributeError => [AttributeError; Exception_; BaseException]
  | RuntimeError => [RuntimeError; Exception_; BaseException]
  end.

Definition issubclass (c d : exn_class) : bool :=
  existsb (exn_class_eqb d) (mro c).

(** A raised exception: its class and the text [str(e)] gives. *)
Record exn : Type := Exn { exn_cls : exn_class; exn_str : string }.

(** [isinstance(e, d)], the test an [except d] clause makes. *)
Definition isinstance (e : exn) (d : exn_class) : bool :=
  issubclass (exn_cls e) d.

(** The outcome of evaluating an expression. *)
Inductive result (A : Type) : Type :=
| Ret (a : A)
| Raise (e : exn).
Arguments Ret {A} a.
Arguments Raise {A} e.

(** Cell values of the data frame. *)
Inductive pyval : Type :=
| VStr (s : string)
| VInt (z : Z)
| VFloat (f : float).

(** [v == n] for an integer literal [n]: numbers compare by value across
    [int] and [float], a string never equals a number. *)
Definition float_of_Z (n : Z) : float :=
  match n with
  | Z0 => PrimFloat.zero
  | Zpos _ => PrimFloat.of_uint63 (Uint63.of_Z n)
  | Zneg _ => PrimFloat.opp (PrimFloat.of_uint63 (Uint63.of_Z (- n)))
  end.

Definition py_eq_int (v : pyval) (n : Z) : bool :=
  match v with
  | VInt z => Z.eqb z n
  | VFloat f => PrimFloat.eqb f (float_of_Z n)
  | VStr _ => false
  end.

(** Truth value of a string: empty strings are false. *)
Definition str_truthy (s : string) : bool :=
  match s with
  | EmptyString => false
  | String _ _ => true
  end.

End Py.
Export Py.

(** ** A one-row pandas data frame

    The script only ever builds frames of a single row, so a frame is the
    ordered list of its columns, each with the cell of that row. *)

Module DataFrame.

Definition dataframe : Type := list (string * pyval).

(** [pd.DataFrame([cells], columns=names)] for a single row. *)
Definition of_row (cells : list pyval) (names : list string) : dataframe :=
  combine names cells.

Definition columns (df : dataframe) : list string := map fst df.

(** [df[col]]: the cell of column [col], [None] when there is no such
    column (pandas raises [KeyError]). *)
Fixpoint getitem (col : string) (df : dataframe) : option pyval :=
  match df with
  | [] => None
  | (c, v) :: rest => if String.eqb c col then Some v else getitem col rest
  end.

(** [df[col] = v]: an existing column keeps its position, a new one is
    appended. *)
Fixpoint setitem (col : string) (v : pyval) (df : dataframe) : dataframe :=
  match df with
  | [] => [(col, v)]
  | (c, w) :: rest =>
      if String.eqb c col then (c, v) :: rest
      else (c, w) :: setitem col v rest
  end.

End DataFrame.
Export DataFrame.

(** ** Page elements and library calls, in the order they happen *)

(** A coordinate pair, latitude first, as [geodesic] takes it. *)
Definition point : Type := (float * float)%type.

(** What a run does that can be seen from outside: the calls it makes to
    joblib, geopy, pandas, the encoders and the classifier, and the calls to
    Streamlit that put an element on the page ([st.error], [st.success],
    [st.expander], [st.dataframe]). *)
Inductive event : Type :=
| JoblibLoad (path : string)
| StError (body : string) (icon : option string)
| StSuccess (body : string) (icon : option string)
| StExpander (label : string)
| StDataframe (df : dataframe)
| Geodesic (p q : point)
| PdDataFrame (df : dataframe)
| LeTransform (col : string) (v : pyval)
| ModelPredict (df : dataframe).

(** ** The script monad: a trace of events and a value or an exception *)

Definition py (A : Type) : Type := (list event * result A)%type.

Definition trace_of {A} (m : py A) : list event := fst m.
Definition result_of {A} (m : py A) : result A := snd m.

Definition py_pure {A} (a : A) : py A := ([], Ret a).

Definition py_bind_def {A B} (f : A -> py B) (m : py A) : py B :=
  match snd m with
  | Ret a => (fst m ++ fst (f a), snd (f a))
  | Raise e => (fst m, Raise e)
  end.

#[export] Instance py_ret : MRet py := @py_pure.
#[export] Instance py_bind : MBind py := @py_bind_def.

Definition raise {A} (e : exn) : py A := ([], Raise e).

Definition emit (ev : event) : py unit := ([ev], Ret tt).

(** A call into a library: the call is recorded, then it returns or
    raises. *)
Definition call {A} (ev : event) (r : result A) : py A := ([ev], r).

(** [try: body / except cls as e: handler e].  Whatever the body recorded
    before raising stays recorded. *)
Definition try_except {A} (body : py A) (cls : exn_class)
    (handler : exn -> py A) : py A :=
  match snd body with
  | Ret a => body
  | Raise e =>
      if isinstance e cls
      then (fst body ++ fst (handler e), snd (handler e))
      else body
  end.

(** ** The artifacts *)

(** A fitted label encoder, seen through its [transform]. *)
Record label_encoder : Type := LabelEncoder {
  le_transform : pyval -> result Z
}.

(** A trained classifier, seen through its [predict]: one label per row. *)
Record classifier : Type := Classifier {
  clf_predict : dataframe -> result (list pyval)
}.

(** ** The form *)

Inductive gender_option : Type := Male | Female.

Definition gender_label (g : gender_option) : string :=
  match g with
  | Male => "Male"
  | Female => "Female"
  end.

Record form_input : Type := Form {
  merchant : string;
  category : string;
  amt : float;
  lat : float;
  long : float;
  merch_lat : float;
  merch_long : float;
  hour : Z;
  day : Z;
  month : Z;
  gender : gender_option;
  cc_num : string;
  submitted : bool
}.

(** ** The script *)

Definition model_path : string := "fraud_detection_model.jb".
Definition encoder_path : string := "label_encoder.jb".

(** What [joblib.load] does for each of the two files when it is called. *)
Record disk : Type := Disk {
  joblib_load_model : result classifier;
  joblib_load_encoder : result (gmap string label_encoder)
}.

(** The pair [load_models] returns; [None] is Python's [None]. *)
Definition loaded : Type :=
  (option classifier * option (gmap string label_encoder))%type.

Definition loader_message : string :=
  "Model or encoder file not found. Please ensure 'fraud_detection_model.jb' and 'label_encoder.jb' are in the correct path.".

Definition validation_message : string :=
  "Please fill all text fields: Merchant, Category, and Credit Card Number.".

Definition fraud_verdict : event :=
  StError "Prediction: Fraudulent Transaction 🚨" (Some "🚨").

Definition legitimate_verdict : event :=
  StSuccess "Prediction: Legitimate Transaction ✅" (Some "✅").

Definition generic_message (e : exn) : string :=
  String.append "An error occurred during prediction: " (exn_str e).

Definition generic_error (e : exn) : event :=
  StError (generic_message e) None.

Definition feature_columns : list string :=
  ["merchant"; "category"; "amt"; "distance"; "hour"; "day"; "month";
   "gender"; "cc_num"].

Definition categorical_col : list string := ["merchant"; "category"; "gender"].

(** The body of [load_models], lines 20-26. *)
Definition load_models_body (d : disk) : py loaded :=
  try_except
    (model ← call (JoblibLoad model_path) (joblib_load_model d);
     encoder ← call (JoblibLoad encoder_path) (joblib_load_encoder d);
     mret (Some model, Some encoder))
    FileNotFoundError
    (λ _, emit (StError loader_message None);; mret (None, None)).

(** [@st.cache_resource]: the first call that returns stores its value and
    the page elements it produced; later calls return the stored value and
    replay those elements without running the body.  A call that raises
    stores nothing. *)
Record cache_entry : Type := CacheEntry {
  cached_value : loaded;
  cached_elements : list event
}.

Definition is_element (ev : event) : bool :=
  match ev with
  | StError _ _ | StSuccess _ _ | StExpander _ | StDataframe _ => true
  | _ => false
  end.

Definition load_models (cache : option cache_entry) (d : disk)
    : py loaded * option cache_entry :=
  match cache with
  | Some entry => ((cached_elements entry, Ret (cached_value entry)), cache)
  | None =>
      let m := load_models_body d in
      match result_of m with
      | Ret v => (m, Some (CacheEntry v (filter (λ ev, is_element ev = true) (trace_of m))))
      | Raise _ => (m, None)
      end
  end.

(** Truth values of the two loaded objects in [not model or not encoder]:
    [None] is false, an estimator object is true, a dictionary is true when
    it is not empty. *)
Definition model_truthy (model : option classifier) : bool :=
  match model with
  | Some _ => true
  | None => false
  end.

Definition encoder_truthy (encoder : option (gmap string label_encoder)) : bool :=
  match encoder with
  | Some d => negb (Nat.eqb (size d) 0)
  | None => false
  end.

(** [st.stop()] *)
Definition st_stop {A} : py A := raise (Exn StopException "").

(** [encoder[col]] *)
Definition encoder_getitem (encoder : option (gmap string label_encoder))
    (col : string) : py label_encoder :=
  match encoder with
  | None => raise (Exn TypeError "'NoneType' object is not subscriptable")
  | Some d =>
      match d !! col with
      | Some le => mret le
      | None => raise (Exn KeyError (String.append "'" (String.append col "'")))
      end
  end.

(** [df[col]] as an expression *)
Definition df_getitem (df : dataframe) (col : string) : py pyval :=
  match getitem col df with
  | Some v => mret v
  | None => raise (Exn KeyError (String.append "'" (String.append col "'")))
  end.

(** A [for] loop threading the object its body updates. *)
Fixpoint for_each {A S} (xs : list A) (body : S -> A -> py S) (s : S) : py S :=
  match xs with
  | [] => mret s
  | x :: rest => s' ← body s x; for_each rest body s'
  end.

(** Lines 105-108: the frame as first built, from the form and the
    distance. *)
Definition input_row (f : form_input) (distance : pyval) : dataframe :=
  of_row [VStr (merchant f); VStr (category f); VFloat (amt f); distance;
          VInt (hour f); VInt (day f); VInt (month f);
          VStr (gender_label (gender f)); VStr (cc_num f)]
         feature_columns.

Section Script.

(** The libraries and the interpreter the script runs on. *)
Variable geodesic : point -> point -> result float.   (* geopy: distance in km *)
Variable py_hash : pyval -> Z.                        (* hash() of this process *)
Variable st_dataframe : dataframe -> result unit.     (* rendering a frame *)

(** [haversine], lines 31-36. *)
Definition haversine (lat1 lon1 lat2 lon2 : float) : py pyval :=
  try_except
    (km ← call (Geodesic (lat1, lon1) (lat2, lon2))
               (geodesic (lat1, lon1) (lat2, lon2));
     mret (VFloat km))
    ValueError
    (λ _, mret (VInt 0)).

(** One turn of the loop of lines 114-120. *)
Definition encode_column (encoder : option (gmap string label_encoder))
    (df : dataframe) (col : string) : py dataframe :=
  try_except
    (le ← encoder_getitem encoder col;
     cell ← df_getitem df col;
     code ← call (LeTransform col cell) (le_transform le cell);
     mret (setitem col (VInt code) df))
    ValueError
    (λ _, mret (setitem col (VInt (-1)) df)).

(** Line 123: the card number column through [hash(x) % (10 ** 2)]. *)
Definition hash_cc_num (df : dataframe) : py dataframe :=
  cc ← df_getitem df "cc_num";
  mret (setitem "cc_num" (VInt (py_hash cc mod 10 ^ 2)) df).

(** Lines 102-123: distance, frame, encoding, hashing. *)
Definition preprocess (encoder : option (gmap string label_encoder))
    (f : form_input) : py dataframe :=
  distance ← haversine (lat f) (long f) (merch_lat f) (merch_long f);
  let input_data := input_row f distance in
  emit (PdDataFrame input_data);;
  input_data_processed ← for_each categorical_col (encode_column encoder) input_data;
  hash_cc_num input_data_processed.

(** Line 126: [model.predict(input_data_processed)[0]]. *)
Definition predict_first (model : option classifier) (df : dataframe) : py pyval :=
  match model with
  | None => raise (Exn AttributeError "'NoneType' object has no attribute 'predict'")
  | Some clf =>
      labels ← call (ModelPredict df) (clf_predict clf df);
      match labels with
      | prediction :: _ => mret prediction
      | [] => raise (Exn IndexError "index 0 is out of bounds for axis 0 with size 0")
      end
  end.

(** Lines 129-132. *)
Definition display_result (prediction : pyval) : py unit :=
  if py_eq_int prediction 1 then emit fraud_verdict else emit legitimate_verdict.

(** The body of the [try] of lines 100-136. *)
Definition submission_body (model : option classifier)
    (encoder : option (gmap string label_encoder)) (f : form_input) : py unit :=
  input_data_processed ← preprocess encoder f;
  prediction ← predict_first model input_data_processed;
  display_result prediction;;
  emit (StExpander "See processed data sent to model");;
  call (StDataframe input_data_processed) (st_dataframe input_data_processed).

(** Lines 92-139: what runs once the button was pressed. *)
Definition on_submit (model : option classifier)
    (encoder : option (gmap string label_encoder)) (f : form_input) : py unit :=
  (if negb (model_truthy model) || negb (encoder_truthy encoder)
   then st_stop else mret tt);;
  if negb (forallb str_truthy [merchant f; category f; cc_num f])
  then emit (StError validation_message None)
  else try_except (submission_body model encoder f) Exception_
         (λ e, emit (generic_error e)).

(** One run of the whole script (Streamlit reruns it on every
    interaction): load or reuse the artifacts, show the form, and handle
    the submission if there is one. *)
Definition script (cache : option cache_entry) (d : disk) (f : form_input)
    : py unit * option cache_entry :=
  let '(m, cache') := load_models cache d in
  ('(model, encoder) ← m;
   if submitted f then on_submit model encoder f else mret tt,
   cache').

(** How the run ended, as the script runner sees it. *)
Inductive outcome : Type :=
| Completed
| Stopped
| Crashed (e : exn).

Definition outcome_of (r : result unit) : outcome :=
  match r with
  | Ret _ => Completed
  | Raise e => if isinstance e StopException then Stopped else Crashed e
  end.

Definition run (cache : option cache_entry) (d : disk) (f : form_input)
    : (list event * outcome) * option cache_entry :=
  let '(m, cache') := script cache d f in
  ((trace_of m, outcome_of (result_of m)), cache').

(** A process serving a sequence of runs with one shared cache. *)
Fixpoint serve (cache : option cache_entry) (requests : list (disk * form_input))
    : list (list event * outcome) * option cache_entry :=
  match requests with
  | [] => ([], cache)
  | (d, f) :: rest =>
      let '(r, cache') := run cache d f in
      let '(rs, cache'') := serve cache' rest in
      (r :: rs, cache'')
  end.

End Script.

(** ** A concrete world to run the script in *)

Module Sample.

(** The coordinate check geopy's [Point] makes before any distance is
    computed: a coordinate that is not finite, or a latitude outside
    [-90, 90], raises [ValueError]; a longitude outside [-180, 180] is
    wrapped back into that range, not refused. *)
Fixpoint fmod_360 (turns : nat) (x : float) : float :=
  match turns with
  | O => x
  | S n =>
      if (360 <=? x)%float then fmod_360 n (x - 360)%float
      else if (x <=? -360)%float then fmod_360 n (x + 360)%float
      else x
  end.

(** The remainder is taken one turn at a time, at most sixteen times:
    enough for any longitude a form is likely to carry. *)
Definition normalize_angle (x : float) : float :=
  let modulo := fmod_360 16 x in
  if (modulo <? -180)%float then (modulo + 360)%float
  else if (180 <=? modulo)%float then (modulo - 360)%float
  else modulo.

Definition wrap_longitude (x : float) : float :=
  if (180 <? PrimFloat.abs x)%float then normalize_angle x else x.

Definition check_point (p : point) : result point :=
  if negb (PrimFloat.is_finite (fst p) && PrimFloat.is_finite (snd p))
  then Raise (Exn ValueError "Point coordinates must be finite.")
  else if (90 <? PrimFloat.abs (fst p))%float
  then Raise (Exn ValueError "Latitude must be in the [-90; 90] range.")
  else Ret (fst p, wrap_longitude (snd p)).

(** The distance itself stands in for the ellipsoidal computation: flat
    degrees times the length of a degree.  Only which inputs raise, and
    that distinct points are a positive distance apart, matter here. *)
Definition flat_km (p q : point) : float :=
  (111.195 * PrimFloat.sqrt ((fst p - fst q) * (fst p - fst q)
                             + (snd p - snd q) * (snd p - snd q)))%float.

Definition geodesic (p q : point) : result float :=
  match check_point p with
  | Raise e => Raise e
  | Ret p' =>
      match check_point q with
      | Raise e => Raise e
      | Ret q' => Ret (flat_km p' q')
      end
  end.

(** A label encoder fitted on [classes]: the code of a label is its
    position, an unseen label raises [ValueError]. *)
Fixpoint index_of (s : string) (classes : list string) (i : Z) : option Z :=
  match classes with
  | [] => None
  | c :: rest => if String.eqb c s then Some i else index_of s rest (i + 1)
  end.

Definition fitted (classes : list string) : label_encoder :=
  LabelEncoder (λ v,
    match v with
    | VStr s =>
        match index_of s classes 0 with
        | Some i => Ret i
        | None => Raise (Exn ValueError
                    (String.append "y contains previously unseen labels: " s))
        end
    | _ => Raise (Exn ValueError "y contains previously unseen labels")
    end).

Definition encoder : gmap string label_encoder :=
  <["merchant" := fitted ["Acme"; "Globex"]]>
    (<["category" := fitted ["grocery"; "travel"]]>
       (<["gender" := fitted ["Female"; "Male"]]> ∅)).

(** A classifier that flags amounts above 1000. *)
Definition model : classifier :=
  Classifier (λ df,
    match getitem "amt" df with
    | Some (VFloat a) => if (1000 <? a)%float then Ret [VInt 1] else Ret [VInt 0]
    | _ => Raise (Exn ValueError "could not convert string to float")
    end).

(** A classifier whose labels are neither 0 nor 1. *)
Definition odd_model : classifier := Classifier (λ _, Ret [VInt 2]).

(** A hash for this process: any fixed function will do. *)
Fixpoint string_sum (s : string) : Z :=
  match s with
  | EmptyString => 0
  | String a rest => Z.of_nat (Ascii.nat_of_ascii a) + 31 * string_sum rest
  end.

Definition py_hash (v : pyval) : Z :=
  match v with
  | VStr s => string_sum s - 7
  | VInt z => z
  | VFloat _ => 0
  end.

Definition st_dataframe (df : dataframe) : result unit := Ret tt.

Definition disk_ok : disk := Disk (Ret model) (Ret encoder).

Definition disk_missing : disk :=
  Disk (Raise (Exn FileNotFoundError
         "[Errno 2] No such file or directory: 'fraud_detection_model.jb'"))
       (Ret encoder).

Definition disk_corrupt : disk :=
  Disk (Raise (Exn Exception_ "invalid load key")) (Ret encoder).

(** A classifier that refuses the frame it is given. *)
Definition broken_model : classifier :=
  Classifier (λ _, Raise (Exn ValueError
    "Number of features of the model must match the input."))%string.

(** A page that cannot render the processed row. *)
Definition st_dataframe_failing (df : dataframe) : result unit :=
  Raise (Exn RuntimeError "Could not convert dataframe to Arrow table").

(** The scenario of the specification. *)
Definition acme : form_input :=
  Form "Acme" "grocery" 45.5%float
       40%float (-73)%float 40.1%float (-73.1)%float
       14 5 3 Male "4111111111111111" true.

(** The same submission from a merchant the encoder never saw, with a
    large amount, and with the merchant left empty. *)
Definition hooli : form_input :=
  Form "Hooli" "grocery" 45.5%float
       40%float (-73)%float 40.1%float (-73.1)%float
       14 5 3 Male "4111111111111111" true.

Definition acme_large : form_input :=
  Form "Acme" "travel" 2500%float
       40%float (-73)%float 40.1%float (-73.1)%float
       23 31 12 Female "4111111111111111" true.

Definition no_merchant : form_input :=
  Form "" "grocery" 45.5%float
       40%float (-73)%float 40.1%float (-73.1)%float
       14 5 3 Male "4111111111111111" true.

End Sample.

(** ** Further worlds, for the edges of the script *)

Module Edge.

(** A classifier that returns no label at all. *)
Definition silent_model : classifier := Classifier (λ _, Ret []).

(** An encoder file that holds an empty dictionary. *)
Definition disk_empty_encoder : disk := Disk (Ret Sample.model) (Ret ∅).

(** A dictionary without an encoder for the category column. *)
Definition encoder_without_category : gmap string label_encoder :=
  <["merchant" := Sample.fitted ["Acme"; "Globex"]]>
    (<["gender" := Sample.fitted ["Female"; "Male"]]> ∅).

(** A submission whose own latitude is out of range. *)
Definition off_the_map : form_input :=
  Form "Acme" "grocery" 45.5%float
       200%float (-73)%float 40.1%float (-73.1)%float
       14 5 3 Male "4111111111111111" true.

(** A page that was opened but not submitted. *)
Definition untouched : form_input :=
  Form "" "" 0%float 0%float 0%float 0%float 0%float 12 15 6 Male "" false.

(** The row the scenario of the specification is turned into. *)
Definition acme_row : dataframe :=
  [("merchant", VInt 0); ("category", VInt 0); ("amt", VFloat 45.5);
   ("distance", VFloat 15.725347706807296);
   ("hour", VInt 14); ("day", VInt 5); ("month", VInt 3);
   ("gender", VInt 1); ("cc_num", VInt 80)].

(** One hundred and one card numbers, all different. *)
Definition cards : list string :=
  map (λ n : nat, String.append "4111-" (pretty n)) (seq 0 101).

End Edge.

(** ** geopy's [geodesic], as far as the script depends on it *)

Module Geopy.

(** [geodesic(p, q).km]: both arguments are first made into a [Point],
    which is where the coordinates are checked ([Sample.check_point]: a
    coordinate that is not finite or a latitude beyond 90 degrees raises
    [ValueError], a longitude is wrapped); only then is the distance
    computed, on the checked points.  The computation itself, [kernel],
    stays a parameter. *)
Definition geodesic (kernel : point -> point -> result float)
    (p q : point) : result float :=
  match Sample.check_point p with
  | Raise e => Raise e
  | Ret p' =>
      match Sample.check_point q with
      | Raise e => Raise e
      | Ret q' => kernel p' q'
      end
  end.

(** A latitude out of range: more than 90 degrees either way, the test
    [abs(latitude) > 90] of the check. *)
Definition latitude_out_of_range (latitude : float) : bool :=
  (90 <? PrimFloat.abs latitude)%float.

End Geopy.

(** ** Vocabulary of the properties *)

(** A coordinate pair in range: latitude within 90 degrees of the equator,
    longitude within 180 degrees of the prime meridian. *)
Definition valid_point (p : point) : bool :=
  (PrimFloat.abs (fst p) <=? 90)%float && (PrimFloat.abs (snd p) <=? 180)%float.

Definition out_of_range (p : point) : bool := negb (valid_point p).

(** The value the form submitted for a categorical column. *)
Definition categorical_value (f : form_input) (col : string) : pyval :=
  if String.eqb col "merchant" then VStr (merchant f)
  else if String.eqb col "category" then VStr (category f)
  else VStr (gender_label (gender f)).

(** An encoder copes with a value when its [transform] returns a code or
    fails with a [ValueError], the failure the encoding loop catches. *)
Definition handled (le : label_encoder) (v : pyval) : Prop :=
  match le_transform le v with
  | Ret _ => True
  | Raise e => isinstance e ValueError = true
  end.

(** Likewise for the distance of a submission. *)
Definition distance_available (geodesic : point -> point -> result float)
    (f : form_input) : Prop :=
  match geodesic (lat f, long f) (merch_lat f, merch_long f) with
  | Ret _ => True
  | Raise e => isinstance e ValueError = true
  end.

(** The events preprocessing can leave in the trace. *)
Definition is_preprocess_event (ev : event) : bool :=
  match ev with
  | Geodesic _ _ | PdDataFrame _ | LeTransform _ _ => true
  | _ => false
  end.

(** The verdict lines 129-132 choose for a prediction. *)
Definition verdict_for (prediction : pyval) : event :=
  if py_eq_int prediction 1 then fraud_verdict else legitimate_verdict.

Definition is_fraud_verdict (ev : event) : bool :=
  match ev with
  | StError body (Some icon) =>
      String.eqb body "Prediction: Fraudulent Transaction 🚨" && String.eqb icon "🚨"
  | _ => false
  end.

Definition is_legitimate_verdict (ev : event) : bool :=
  match ev with
  | StSuccess body (Some icon) =>
      String.eqb body "Prediction: Legitimate Transaction ✅" && String.eqb icon "✅"
  | _ => false
  end.

(** How many events of a trace satisfy a test. *)
Definition count_events (p : event -> bool) (tr : list event) : nat :=
  length (List.filter p tr).

(** The three required text fields are all filled in. *)
Definition required_fields_filled (f : form_input) : bool :=
  forallb str_truthy [merchant f; category f; cc_num f].

(** One of the two artifact files is not there when [load_models] runs. *)
Definition missing_files (d : disk) : Prop :=
  (exists e, joblib_load_model d = Raise e /\ isinstance e FileNotFoundError = true)
  \/ (exists m e, joblib_load_model d = Ret m
                  /\ joblib_load_encoder d = Raise e
                  /\ isinstance e FileNotFoundError = true).

(** The events of a run that got no further than loading: calls to
    [joblib.load] and the loader's own error message. *)
Definition loading_only (ev : event) : bool :=
  match ev with
  | JoblibLoad _ => true
  | StError body None => String.eqb body loader_message
  | _ => false
  end.

(** A run that was halted by [st.stop()] before anything but loading. *)
Definition halted (r : list event * outcome) : Prop :=
  snd r = Stopped /\ Forall (fun ev => loading_only ev = true) (fst r).

(** What [load_models] has cached once the files were found missing. *)
Definition empty_pair_cached : option cache_entry :=
  Some (CacheEntry (None, None) [StError loader_message None]).

(** Both loaded objects pass the guard of line 93. *)
Definition artifacts_loaded (model : option classifier)
    (encoder : option (gmap string label_encoder)) : bool :=
  model_truthy model && encoder_truthy encoder.

Definition is_joblib_load (ev : event) : bool :=
  match ev with
  | JoblibLoad _ => true
  | _ => false
  end.

Definition is_verdict (ev : event) : bool :=
  is_fraud_verdict ev || is_legitimate_verdict ev.

(** The distance cell of a submission: geodesic's kilometres, or the 0 of
    line 36. *)
Definition distance_cell (geodesic : point -> point -> result float)
    (f : form_input) : pyval :=
  match geodesic (lat f, long f) (merch_lat f, merch_long f) with
  | Ret km => VFloat km
  | Raise _ => VInt 0
  end.

(** What the [except Exception] of lines 138-139 makes of an exception that
    reaches it: the generic message, or the exception again when it does
    not derive from [Exception]. *)
Definition surface (e : exn) : py unit :=
  if isinstance e Exception_ then emit (generic_error e) else raise e.

(** The states the cache of [load_models] can be in. *)
Definition cache_ok (cache : option cache_entry) : Prop :=
  cache = None
  \/ cache = empty_pair_cached
  \/ exists clf enc, cache = Some (CacheEntry (Some clf, Some enc) []).

(** The ways a submission can go, each with what the handler then does. *)
Inductive submission_view
    (geodesic : point -> point -> result float) (py_hash : pyval -> Z)
    (st_dataframe : dataframe -> result unit)
    (model : option classifier) (encoder : option (gmap string label_encoder))
    (f : form_input) : py unit -> Prop :=
| NotLoaded :
    artifacts_loaded model encoder = false ->
    submission_view geodesic py_hash st_dataframe model encoder f
      ([], Raise (Exn StopException ""))
| Invalid :
    artifacts_loaded model encoder = true ->
    required_fields_filled f = false ->
    submission_view geodesic py_hash st_dataframe model encoder f
      ([StError validation_message None], Ret tt)
| PreprocessFailed e :
    artifacts_loaded model encoder = true ->
    required_fields_filled f = true ->
    result_of (preprocess geodesic py_hash encoder f) = Raise e ->
    submission_view geodesic py_hash st_dataframe model encoder f
      (trace_of (preprocess geodesic py_hash encoder f) ++ trace_of (surface e),
       result_of (surface e))
| PredictFailed df e :
    artifacts_loaded model encoder = true ->
    required_fields_filled f = true ->
    result_of (preprocess geodesic py_hash encoder f) = Ret df ->
    result_of (predict_first model df) = Raise e ->
    submission_view geodesic py_hash st_dataframe model encoder f
      (trace_of (preprocess geodesic py_hash encoder f)
         ++ trace_of (predict_first model df) ++ trace_of (surface e),
       result_of (surface e))
| Displayed df prediction :
    artifacts_loaded model encoder = true ->
    required_fields_filled f = true ->
    result_of (preprocess geodesic py_hash encoder f) = Ret df ->
    result_of (predict_first model df) = Ret prediction ->
    st_dataframe df = Ret tt ->
    submission_view geodesic py_hash st_dataframe model encoder f
      (trace_of (preprocess geodesic py_hash encoder f)
         ++ [ModelPredict df; verdict_for prediction;
             StExpander "See processed data sent to model"; StDataframe df],
       Ret tt)
| DisplayFailed df prediction e :
    artifacts_loaded model encoder = true ->
    required_fields_filled f = true ->
    result_of (preprocess geodesic py_hash encoder f) = Ret df ->
    result_of (predict_first model df) = Ret prediction ->
    st_dataframe df = Raise e ->
    submission_view geodesic py_hash st_dataframe model encoder f
      (trace_of (preprocess geodesic py_hash encoder f)
         ++ [ModelPredict df; verdict_for prediction;
             StExpander "See processed data sent to model"; StDataframe df]
         ++ trace_of (surface e),
       result_of (surface e)).

(** * Properties *)

(** ** Python values *)

Example issubclass_fnf_oserror : issubclass FileNotFoundError OSError = true.
Proof. reflexivity. Qed.

Example stop_is_not_an_exception :
  isinstance (Exn StopException "") Exception_ = false.
Proof. reflexivity. Qed.

Example py_eq_float_one : py_eq_int (VFloat 1%float) 1 = true.
Proof. reflexivity. Qed.

(** ** The monad *)

Ltac py_unfold :=
  unfold mbind, py_bind, py_bind_def, mret, py_ret, py_pure, call, emit,
    raise, trace_of, result_of in *.

Lemma bind_ret {A B} (m : py A) (f : A -> py B) (a : A) :
  result_of m = Ret a ->
  m ≫= f = (trace_of m ++ trace_of (f a), result_of (f a)).
Proof. py_unfold. intros ->. reflexivity. Qed.

Lemma bind_raise {A B} (m : py A) (f : A -> py B) (e : exn) :
  result_of m = Raise e ->
  m ≫= f = (trace_of m, Raise e).
Proof. py_unfold. intros ->. reflexivity. Qed.

Lemma try_except_ret {A} (body : py A) cls handler (a : A) :
  result_of body = Ret a -> try_except body cls handler = body.
Proof. unfold try_except, result_of. intros ->. reflexivity. Qed.

Lemma try_except_caught {A} (body : py A) cls handler (e : exn) :
  result_of body = Raise e -> isinstance e cls = true ->
  try_except body cls handler
  = (trace_of body ++ trace_of (handler e), result_of (handler e)).
Proof. unfold try_except, result_of, trace_of. intros -> ->. reflexivity. Qed.

Lemma try_except_passed {A} (body : py A) cls handler (e : exn) :
  result_of body = Raise e -> isinstance e cls = false ->
  try_except body cls handler = body.
Proof. unfold try_except, result_of. intros -> ->. reflexivity. Qed.

Lemma result_bind_ret {A B} (m : py A) (f : A -> py B) (a : A) :
  result_of m = Ret a -> result_of (m ≫= f) = result_of (f a).
Proof. intros H. rewrite (bind_ret _ _ _ H). reflexivity. Qed.

Lemma result_bind_raise {A B} (m : py A) (f : A -> py B) (e : exn) :
  result_of m = Raise e -> result_of (m ≫= f) = Raise e.
Proof. intros H. rewrite (bind_raise _ _ _ H). reflexivity. Qed.

Lemma trace_bind_ret {A B} (m : py A) (f : A -> py B) (a : A) :
  result_of m = Ret a -> trace_of (m ≫= f) = trace_of m ++ trace_of (f a).
Proof. intros H. rewrite (bind_ret _ _ _ H). reflexivity. Qed.

Lemma trace_bind_raise {A B} (m : py A) (f : A -> py B) (e : exn) :
  result_of m = Raise e -> trace_of (m ≫= f) = trace_of m.
Proof. intros H. rewrite (bind_raise _ _ _ H). reflexivity. Qed.

(** Every event of a bind comes from one of its two halves. *)
Lemma Forall_trace_bind {A B} (P : event -> Prop) (m : py A) (f : A -> py B) :
  Forall P (trace_of m) -> (forall a, Forall P (trace_of (f a))) ->
  Forall P (trace_of (m ≫= f)).
Proof.
  intros Hm Hf. destruct (result_of m) as [a|e] eqn:Hr.
  - rewrite (bind_ret _ _ _ Hr). apply Forall_app. split; [exact Hm | apply Hf].
  - rewrite (bind_raise _ _ _ Hr). exact Hm.
Qed.

Lemma Forall_trace_try {A} (P : event -> Prop) (body : py A) cls handler :
  Forall P (trace_of body) -> (forall e, Forall P (trace_of (handler e))) ->
  Forall P (trace_of (try_except body cls handler)).
Proof.
  intros Hb Hh. unfold try_except.
  destruct (snd body) as [a|e]; [exact Hb |].
  destruct (isinstance e cls); [| exact Hb].
  apply Forall_app. split; [exact Hb | apply Hh].
Qed.

(** ** The distance function *)

Section Distance.

Variable geodesic : point -> point -> result float.

Lemma haversine_returns lat1 lon1 lat2 lon2 km :
  geodesic (lat1, lon1) (lat2, lon2) = Ret km ->
  haversine geodesic lat1 lon1 lat2 lon2
  = ([Geodesic (lat1, lon1) (lat2, lon2)], Ret (VFloat km)).
Proof. intros H. unfold haversine, try_except. py_unfold. rewrite H. reflexivity. Qed.

Lemma haversine_rejected lat1 lon1 lat2 lon2 e :
  geodesic (lat1, lon1) (lat2, lon2) = Raise e ->
  isinstance e ValueError = true ->
  haversine geodesic lat1 lon1 lat2 lon2
  = ([Geodesic (lat1, lon1) (lat2, lon2)], Ret (VInt 0)).
Proof.
  intros H Hv. unfold haversine, try_except. py_unfold. rewrite H. simpl.
  rewrite Hv. reflexivity.
Qed.

Lemma haversine_raises lat1 lon1 lat2 lon2 e :
  geodesic (lat1, lon1) (lat2, lon2) = Raise e ->
  isinstance e ValueError = false ->
  haversine geodesic lat1 lon1 lat2 lon2
  = ([Geodesic (lat1, lon1) (lat2, lon2)], Raise e).
Proof.
  intros H Hv. unfold haversine, try_except. py_unfold. rewrite H. simpl.
  rewrite Hv. reflexivity.
Qed.

Lemma haversine_trace lat1 lon1 lat2 lon2 :
  trace_of (haversine geodesic lat1 lon1 lat2 lon2)
  = [Geodesic (lat1, lon1) (lat2, lon2)].
Proof.
  destruct (geodesic (lat1, lon1) (lat2, lon2)) as [km|e] eqn:H.
  - rewrite (haversine_returns _ _ _ _ _ H). reflexivity.
  - destruct (isinstance e ValueError) eqn:Hv.
    + rewrite (haversine_rejected _ _ _ _ _ H Hv). reflexivity.
    + rewrite (haversine_raises _ _ _ _ _ H Hv). reflexivity.
Qed.

End Distance.

(** The coordinate check raises nothing but [ValueError], and raises it
    for every latitude out of range. *)
Lemma check_point_raises_value_error p e :
  Sample.check_point p = Raise e -> isinstance e ValueError = true.
Proof.
  unfold Sample.check_point.
  destruct (negb (PrimFloat.is_finite (fst p) && PrimFloat.is_finite (snd p)));
    [intros [= <-]; reflexivity |].
  destruct (90 <? PrimFloat.abs (fst p))%float; [intros [= <-]; reflexivity | discriminate].
Qed.

Lemma check_point_bad_latitude p :
  Geopy.latitude_out_of_range (fst p) = true ->
  exists e, Sample.check_point p = Raise e.
Proof.
  unfold Geopy.latitude_out_of_range, Sample.check_point. intros Hbad.
  destruct (negb (PrimFloat.is_finite (fst p) && PrimFloat.is_finite (snd p)));
    [eauto |].
  rewrite Hbad. eauto.
Qed.

Lemma geodesic_bad_latitude kernel p q :
  Geopy.latitude_out_of_range (fst p) = true
  \/ Geopy.latitude_out_of_range (fst q) = true ->
  exists e, Geopy.geodesic kernel p q = Raise e /\ isinstance e ValueError = true.
Proof.
  unfold Geopy.geodesic. intros [Hp | Hq].
  - destruct (check_point_bad_latitude p Hp) as [e He]. rewrite He.
    exists e. split; [reflexivity | exact (check_point_raises_value_error _ _ He)].
  - destruct (Sample.check_point p) as [p'|e] eqn:Hcp.
    + destruct (check_point_bad_latitude q Hq) as [e He]. rewrite He.
      exists e. split; [reflexivity | exact (check_point_raises_value_error _ _ He)].
    + exists e. split; [reflexivity | exact (check_point_raises_value_error _ _ Hcp)].
Qed.

(** C5, as amended.  For every pair of coordinate pairs one of whose
    latitudes is out of range (more than 90 degrees either way, for example
    200), the distance function returns 0 rather than raising an exception:
    geopy refuses such a point with a [ValueError] before it computes any
    distance, and line 35 catches that.  How the distance itself would be
    computed plays no part. *)
Theorem haversine_zero_on_bad_latitude
    (kernel : point -> point -> result float) (lat1 lon1 lat2 lon2 : float) :
  Geopy.latitude_out_of_range lat1 = true
  \/ Geopy.latitude_out_of_range lat2 = true ->
  haversine (Geopy.geodesic kernel) lat1 lon1 lat2 lon2
  = ([Geodesic (lat1, lon1) (lat2, lon2)], Ret (VInt 0)).
Proof.
  intros Hbad.
  destruct (geodesic_bad_latitude kernel (lat1, lon1) (lat2, lon2) Hbad)
    as (e & Hraise & Hv).
  exact (haversine_rejected _ _ _ _ _ _ Hraise Hv).
Qed.

Lemma haversine_zero_on_bad_latitude_witness :
  Geopy.latitude_out_of_range 200 = true
  /\ haversine Sample.geodesic 200 0 0 0
     = ([Geodesic (200%float, 0%float) (0%float, 0%float)], Ret (VInt 0))
  /\ haversine Sample.geodesic 40 (-73) (-90.5) (-73.1)
     = ([Geodesic (40%float, (-73)%float) ((-90.5)%float, (-73.1)%float)],
        Ret (VInt 0)).
Proof.
  split; [reflexivity |]. split.
  - exact (haversine_zero_on_bad_latitude
             (fun p q => Ret (Sample.flat_km p q)) 200 0 0 0 (or_introl eq_refl)).
  - exact (haversine_zero_on_bad_latitude
             (fun p q => Ret (Sample.flat_km p q)) 40 (-73) (-90.5) (-73.1)
             (or_intror eq_refl)).
Defined.

(** C5 as stated fails for a longitude: with the coordinate check geopy
    makes, longitude 200 is out of range, is wrapped to -160, and the
    function returns the distance to the other point, which is not 0. *)
Lemma haversine_longitude_200_not_zero :
  out_of_range (0%float, 200%float) = true
  /\ exists km,
       result_of (haversine Sample.geodesic 0 200 0 0) = Ret (VFloat km)
       /\ py_eq_int (VFloat km) 0 = false.
Proof.
  split; [reflexivity |].
  exists 17791.199999999997%float. split; vm_compute; reflexivity.
Qed.

(** An out-of-range latitude, by contrast, does come back as 0. *)
Example haversine_latitude_200 :
  result_of (haversine Sample.geodesic 200 0 0 0) = Ret (VInt 0).
Proof. reflexivity. Qed.

(** ** Data frames *)

Lemma getitem_setitem_eq col v df : getitem col (setitem col v df) = Some v.
Proof.
  induction df as [|[c w] rest IH]; simpl.
  - rewrite String.eqb_refl. reflexivity.
  - destruct (String.eqb c col) eqn:E; simpl; rewrite E; [reflexivity | exact IH].
Qed.

Lemma getitem_setitem_ne col col' v df :
  col <> col' -> getitem col' (setitem col v df) = getitem col' df.
Proof.
  intros Hne. induction df as [|[c w] rest IH]; simpl.
  - destruct (String.eqb_spec col col'); [contradiction | reflexivity].
  - destruct (String.eqb_spec c col) as [->|Hc]; simpl.
    + destruct (String.eqb_spec col col'); [contradiction | reflexivity].
    + destruct (String.eqb c col'); [reflexivity | exact IH].
Qed.

Lemma columns_setitem col v w df :
  getitem col df = Some w -> columns (setitem col v df) = columns df.
Proof.
  unfold columns. induction df as [|[c u] rest IH]; simpl; [discriminate |].
  destruct (String.eqb c col); simpl; [reflexivity |].
  intros H. f_equal. exact (IH H).
Qed.

Lemma getitem_is_Some_setitem col col' v df :
  is_Some (getitem col' df) -> is_Some (getitem col' (setitem col v df)).
Proof.
  intros H. destruct (String.eqb_spec col col') as [->|Hne].
  - rewrite getitem_setitem_eq. eauto.
  - rewrite (getitem_setitem_ne _ _ _ _ Hne). exact H.
Qed.

(** ** The encoding loop *)

Lemma bind_ret_inv {A B} (m : py A) (f : A -> py B) (b : B) :
  result_of (m ≫= f) = Ret b ->
  exists a, result_of m = Ret a /\ result_of (f a) = Ret b.
Proof.
  destruct (result_of m) as [a|e] eqn:Hr.
  - rewrite (bind_ret _ _ _ Hr). simpl. eauto.
  - rewrite (bind_raise _ _ _ Hr). simpl. discriminate.
Qed.

Section Encoding.

Variable encoder : gmap string label_encoder.

(** What a turn of the loop does, by cases on the encoder's answer. *)
Lemma encode_column_code df col le cell code :
  encoder !! col = Some le -> getitem col df = Some cell ->
  le_transform le cell = Ret code ->
  encode_column (Some encoder) df col
  = ([LeTransform col cell], Ret (setitem col (VInt code) df)).
Proof.
  intros He Hc Ht. unfold encode_column, try_except, encoder_getitem, df_getitem.
  rewrite He, Hc. py_unfold. simpl. rewrite Ht. reflexivity.
Qed.

Lemma encode_column_unseen df col le cell e :
  encoder !! col = Some le -> getitem col df = Some cell ->
  le_transform le cell = Raise e -> isinstance e ValueError = true ->
  encode_column (Some encoder) df col
  = ([LeTransform col cell], Ret (setitem col (VInt (-1)) df)).
Proof.
  intros He Hc Ht Hv. unfold encode_column, try_except, encoder_getitem, df_getitem.
  rewrite He, Hc. py_unfold. simpl. rewrite Ht. simpl. rewrite Hv. reflexivity.
Qed.

Lemma encode_column_fails df col le cell e :
  encoder !! col = Some le -> getitem col df = Some cell ->
  le_transform le cell = Raise e -> isinstance e ValueError = false ->
  encode_column (Some encoder) df col = ([LeTransform col cell], Raise e).
Proof.
  intros He Hc Ht Hv. unfold encode_column, try_except, encoder_getitem, df_getitem.
  rewrite He, Hc. py_unfold. simpl. rewrite Ht. simpl. rewrite Hv. reflexivity.
Qed.

(** A turn that returns has written one cell of its own column, and for a
    column the encoder knows that cell is the code or the sentinel. *)
Lemma encode_column_ret_inv (enc : option (gmap string label_encoder)) df col df' :
  result_of (encode_column enc df col) = Ret df' ->
  exists v, df' = setitem col v df.
Proof.
  unfold encode_column, try_except, encoder_getitem, df_getitem.
  destruct enc as [d|]; py_unfold; simpl.
  - destruct (d !! col) as [le|]; simpl.
    + destruct (getitem col df) as [cell|]; simpl.
      * destruct (le_transform le cell) as [code|e]; simpl.
        -- intros [= <-]. eauto.
        -- destruct (isinstance e ValueError); simpl; [intros [= <-]; eauto | discriminate].
      * discriminate.
    + discriminate.
  - discriminate.
Qed.

Lemma encode_column_cell df col le cell df' :
  encoder !! col = Some le -> getitem col df = Some cell ->
  result_of (encode_column (Some encoder) df col) = Ret df' ->
  match le_transform le cell with
  | Ret code => df' = setitem col (VInt code) df
  | Raise e => isinstance e ValueError = true /\ df' = setitem col (VInt (-1)) df
  end.
Proof.
  intros He Hc. destruct (le_transform le cell) as [code|e] eqn:Ht.
  - rewrite (encode_column_code _ _ _ _ _ He Hc Ht). simpl. congruence.
  - destruct (isinstance e ValueError) eqn:Hv.
    + rewrite (encode_column_unseen _ _ _ _ _ He Hc Ht Hv). simpl.
      intros [= <-]. split; reflexivity.
    + rewrite (encode_column_fails _ _ _ _ _ He Hc Ht Hv). simpl. discriminate.
Qed.

End Encoding.

Section EncodingLoop.

Variable enc : option (gmap string label_encoder).

(** The loop leaves the columns it does not visit alone. *)
Lemma for_each_encode_other (cols : list string) : forall df df' col,
  col ∉ cols ->
  result_of (for_each cols (encode_column enc) df) = Ret df' ->
  getitem col df' = getitem col df.
Proof.
  induction cols as [|c rest IH]; intros df df' col Hnotin Hret.
  - simpl in Hret. injection Hret as <-. reflexivity.
  - simpl in Hret. apply bind_ret_inv in Hret as (df1 & Hstep & Hrest).
    apply not_elem_of_cons in Hnotin as [Hne Hnotin].
    rewrite (IH _ _ _ Hnotin Hrest).
    apply encode_column_ret_inv in Hstep as [v ->].
    apply getitem_setitem_ne. congruence.
Qed.

(** It keeps the columns of the frame, in their order. *)
Lemma for_each_encode_columns (cols : list string) : forall df df',
  (forall c, c ∈ cols -> is_Some (getitem c df)) ->
  result_of (for_each cols (encode_column enc) df) = Ret df' ->
  columns df' = columns df.
Proof.
  induction cols as [|c rest IH]; intros df df' Hin Hret.
  - simpl in Hret. injection Hret as <-. reflexivity.
  - simpl in Hret. apply bind_ret_inv in Hret as (df1 & Hstep & Hrest).
    apply encode_column_ret_inv in Hstep as [v ->].
    rewrite (IH _ _ (fun c' Hc' => getitem_is_Some_setitem _ _ _ _
                        (Hin c' (list_elem_of_further _ _ _ Hc'))) Hrest).
    destruct (Hin c (list_elem_of_here _ _)) as [w Hw].
    exact (columns_setitem _ _ _ _ Hw).
Qed.

(** It only talks to the encoders. *)
Lemma encode_column_trace df col :
  Forall (fun ev => is_preprocess_event ev = true)
         (trace_of (encode_column enc df col)).
Proof.
  unfold encode_column. apply Forall_trace_try; [| intros e; constructor].
  apply Forall_trace_bind.
  { unfold encoder_getitem. destruct enc as [d|]; [destruct (d !! col) |]; constructor. }
  intros le. apply Forall_trace_bind.
  { unfold df_getitem. destruct (getitem col df); constructor. }
  intros cell. apply Forall_trace_bind; [| intros code; constructor].
  constructor; [reflexivity | constructor].
Qed.

Lemma for_each_encode_trace (cols : list string) : forall df,
  Forall (fun ev => is_preprocess_event ev = true)
         (trace_of (for_each cols (encode_column enc) df)).
Proof.
  induction cols as [|c rest IH]; intros df; simpl.
  - constructor.
  - apply Forall_trace_bind; [apply encode_column_trace | intros df1; apply IH].
Qed.

End EncodingLoop.

Section EncodingLoopKnown.

Variable encoder : gmap string label_encoder.

(** For a column the loop visits once, the cell it leaves is the encoder's
    code for the cell it found, or -1 when the encoder failed with a
    [ValueError]; any other failure leaves no frame at all. *)
Lemma for_each_encode_cell (cols : list string) : NoDup cols ->
  forall df df' col le cell,
  col ∈ cols -> encoder !! col = Some le -> getitem col df = Some cell ->
  result_of (for_each cols (encode_column (Some encoder)) df) = Ret df' ->
  match le_transform le cell with
  | Ret code => getitem col df' = Some (VInt code)
  | Raise e => isinstance e ValueError = true /\ getitem col df' = Some (VInt (-1))
  end.
Proof.
  induction cols as [|c rest IH]; intros Hnd df df' col le cell Hin He Hc Hret.
  - apply elem_of_nil in Hin. contradiction.
  - apply NoDup_cons in Hnd as [Hfresh Hnd].
    simpl in Hret. apply bind_ret_inv in Hret as (df1 & Hstep & Hrest).
    apply elem_of_cons in Hin as [->|Hin].
    + pose proof (encode_column_cell _ _ _ _ _ _ He Hc Hstep) as Hcell.
      rewrite (for_each_encode_other _ _ _ _ _ Hfresh Hrest).
      destruct (le_transform le cell) as [code|e].
      * subst df1. apply getitem_setitem_eq.
      * destruct Hcell as [Hv ->]. split; [exact Hv | apply getitem_setitem_eq].
    + apply encode_column_ret_inv in Hstep as [v ->].
      apply (IH Hnd (setitem c v df) df' col le cell Hin He); [| exact Hrest].
      rewrite getitem_setitem_ne; [exact Hc |].
      intros ->. contradiction.
Qed.

(** When every visited column has an encoder that copes with the cell
    found there, the loop returns a frame. *)
Lemma for_each_encode_returns (cols : list string) : NoDup cols ->
  forall df,
  (forall c, c ∈ cols ->
     exists le cell, encoder !! c = Some le /\ getitem c df = Some cell
                     /\ handled le cell) ->
  exists df', result_of (for_each cols (encode_column (Some encoder)) df) = Ret df'.
Proof.
  induction cols as [|c rest IH]; intros Hnd df Hall.
  - exists df. reflexivity.
  - apply NoDup_cons in Hnd as [Hfresh Hnd].
    destruct (Hall c (list_elem_of_here _ _)) as (le & cell & He & Hc & Hh).
    assert (exists v, encode_column (Some encoder) df c
                      = ([LeTransform c cell], Ret (setitem c v df))) as [v Hstep].
    { unfold handled in Hh. destruct (le_transform le cell) as [code|e] eqn:Ht.
      - exists (VInt code). exact (encode_column_code _ _ _ _ _ _ He Hc Ht).
      - exists (VInt (-1)). exact (encode_column_unseen _ _ _ _ _ _ He Hc Ht Hh). }
    destruct (IH Hnd (setitem c v df)) as [df' Hrest].
    { intros c' Hc'. destruct (Hall c' (list_elem_of_further _ _ _ Hc'))
        as (le' & cell' & He' & Hc'' & Hh').
      exists le', cell'. split; [exact He' | split; [| exact Hh']].
      rewrite getitem_setitem_ne; [exact Hc'' |]. intros ->. contradiction. }
    exists df'. simpl.
    rewrite (bind_ret _ _ (setitem c v df)); [exact Hrest |].
    rewrite Hstep. reflexivity.
Qed.

End EncodingLoopKnown.

(** ** Preprocessing *)

Lemma categorical_col_NoDup : NoDup categorical_col.
Proof.
  unfold categorical_col. repeat (apply NoDup_cons; split);
    [ | | | apply NoDup_nil_2 ];
    rewrite ?not_elem_of_cons; repeat split; try discriminate; apply not_elem_of_nil.
Qed.

Lemma input_row_categorical f distance col :
  col ∈ categorical_col ->
  getitem col (input_row f distance) = Some (categorical_value f col).
Proof.
  unfold categorical_col. rewrite !elem_of_cons, elem_of_nil.
  intros [->|[->|[->|[]]]]; reflexivity.
Qed.

Lemma input_row_cc_num f distance :
  getitem "cc_num" (input_row f distance) = Some (VStr (cc_num f)).
Proof. reflexivity. Qed.

Lemma input_row_columns f distance :
  columns (input_row f distance) = feature_columns.
Proof. reflexivity. Qed.

Lemma cc_num_not_categorical : "cc_num" ∉ categorical_col.
Proof.
  unfold categorical_col. rewrite !not_elem_of_cons.
  repeat split; try discriminate. apply not_elem_of_nil.
Qed.

Lemma categorical_not_cc_num col : col ∈ categorical_col -> col <> "cc_num".
Proof. intros Hin ->. exact (cc_num_not_categorical Hin). Qed.

Section Preprocess.

Variable geodesic : point -> point -> result float.
Variable py_hash : pyval -> Z.

Lemma preprocess_trace_kind enc f :
  Forall (fun ev => is_preprocess_event ev = true)
         (trace_of (preprocess geodesic py_hash enc f)).
Proof.
  unfold preprocess. apply Forall_trace_bind.
  { rewrite haversine_trace. constructor; [reflexivity | constructor]. }
  intros distance. cbv zeta. apply Forall_trace_bind.
  { constructor; [reflexivity | constructor]. }
  intros _. apply Forall_trace_bind; [apply for_each_encode_trace |].
  intros df. unfold hash_cc_num. apply Forall_trace_bind; [| intros cc; constructor].
  unfold df_getitem. destruct (getitem "cc_num" df); constructor.
Qed.

(** A frame that comes out of preprocessing went through the three steps. *)
Lemma preprocess_ret_inv enc f df :
  result_of (preprocess geodesic py_hash enc f) = Ret df ->
  exists distance encoded cc,
    result_of (haversine geodesic (lat f) (long f) (merch_lat f) (merch_long f))
      = Ret distance
    /\ result_of (for_each categorical_col (encode_column enc) (input_row f distance))
       = Ret encoded
    /\ getitem "cc_num" encoded = Some cc
    /\ df = setitem "cc_num" (VInt (py_hash cc mod 10 ^ 2)) encoded.
Proof.
  unfold preprocess. intros H.
  apply bind_ret_inv in H as (distance & Hd & H). cbv zeta in H.
  apply bind_ret_inv in H as (_ & _ & H).
  apply bind_ret_inv in H as (encoded & Hloop & H).
  unfold hash_cc_num in H. apply bind_ret_inv in H as (cc & Hcc & H).
  exists distance, encoded, cc. repeat split; try assumption.
  - unfold df_getitem in Hcc. destruct (getitem "cc_num" encoded); [| discriminate].
    simpl in Hcc. congruence.
  - simpl in H. congruence.
Qed.

Lemma preprocess_columns enc f df :
  result_of (preprocess geodesic py_hash enc f) = Ret df ->
  columns df = feature_columns.
Proof.
  intros H. apply preprocess_ret_inv in H as (distance & encoded & cc & _ & Hloop & Hcc & ->).
  rewrite (columns_setitem _ _ _ _ Hcc).
  rewrite (for_each_encode_columns _ _ _ _ (fun c Hc =>
             ex_intro _ _ (input_row_categorical f distance c Hc)) Hloop).
  apply input_row_columns.
Qed.

Lemma preprocess_cc_num enc f df :
  result_of (preprocess geodesic py_hash enc f) = Ret df ->
  getitem "cc_num" df = Some (VInt (py_hash (VStr (cc_num f)) mod 100)).
Proof.
  intros H. apply preprocess_ret_inv in H as (distance & encoded & cc & _ & Hloop & Hcc & ->).
  rewrite getitem_setitem_eq.
  rewrite (for_each_encode_other _ _ _ _ _ cc_num_not_categorical Hloop) in Hcc.
  rewrite input_row_cc_num in Hcc. injection Hcc as <-. reflexivity.
Qed.

Lemma preprocess_categorical encoder f df col le :
  col ∈ categorical_col -> encoder !! col = Some le ->
  result_of (preprocess geodesic py_hash (Some encoder) f) = Ret df ->
  match le_transform le (categorical_value f col) with
  | Ret code => getitem col df = Some (VInt code)
  | Raise e => isinstance e ValueError = true /\ getitem col df = Some (VInt (-1))
  end.
Proof.
  intros Hin He H.
  apply preprocess_ret_inv in H as (distance & encoded & cc & _ & Hloop & _ & ->).
  rewrite getitem_setitem_ne by (apply not_eq_sym, categorical_not_cc_num, Hin).
  exact (for_each_encode_cell encoder _ categorical_col_NoDup _ _ _ _ _
           Hin He (input_row_categorical f distance col Hin) Hloop).
Qed.

Lemma preprocess_returns encoder f :
  distance_available geodesic f ->
  (forall c, c ∈ categorical_col ->
     exists le, encoder !! c = Some le /\ handled le (categorical_value f c)) ->
  exists df, result_of (preprocess geodesic py_hash (Some encoder) f) = Ret df.
Proof.
  intros Hd Hall.
  assert (exists distance,
            haversine geodesic (lat f) (long f) (merch_lat f) (merch_long f)
            = ([Geodesic (lat f, long f) (merch_lat f, merch_long f)], Ret distance))
    as [distance Hdist].
  { unfold distance_available in Hd.
    destruct (geodesic (lat f, long f) (merch_lat f, merch_long f)) as [km|e] eqn:Hg.
    - exists (VFloat km). exact (haversine_returns _ _ _ _ _ _ Hg).
    - exists (VInt 0). exact (haversine_rejected _ _ _ _ _ _ Hg Hd). }
  destruct (for_each_encode_returns encoder _ categorical_col_NoDup (input_row f distance))
    as [encoded Hloop].
  { intros c Hc. destruct (Hall c Hc) as (le & He & Hh).
    exists le, (categorical_value f c).
    split; [exact He | split; [apply input_row_categorical, Hc | exact Hh]]. }
  pose proof (for_each_encode_other _ _ _ _ _ cc_num_not_categorical Hloop) as Hcc.
  rewrite input_row_cc_num in Hcc.
  exists (setitem "cc_num" (VInt (py_hash (VStr (cc_num f)) mod 10 ^ 2)) encoded).
  unfold preprocess.
  rewrite (result_bind_ret _ _ distance) by (rewrite Hdist; reflexivity).
  cbv zeta. rewrite (result_bind_ret _ _ tt) by reflexivity.
  rewrite (result_bind_ret _ _ encoded) by exact Hloop.
  unfold hash_cc_num, df_getitem. rewrite Hcc. reflexivity.
Qed.

End Preprocess.

(** ** Prediction and display *)

Lemma predict_first_trace model df :
  trace_of (predict_first model df)
  = match model with Some _ => [ModelPredict df] | None => [] end.
Proof.
  unfold predict_first. destruct model as [clf|]; [| reflexivity].
  destruct (clf_predict clf df) as [labels|e].
  - rewrite (trace_bind_ret _ _ labels) by reflexivity.
    destruct labels; reflexivity.
  - rewrite (trace_bind_raise _ _ e) by reflexivity. reflexivity.
Qed.

Lemma predict_first_ret_inv model df prediction :
  result_of (predict_first model df) = Ret prediction ->
  exists clf rest, model = Some clf /\ clf_predict clf df = Ret (prediction :: rest).
Proof.
  unfold predict_first. destruct model as [clf|]; [| discriminate].
  intros H. apply bind_ret_inv in H as (labels & Hp & H).
  destruct labels as [|p rest]; [discriminate |].
  injection H as ->. exists clf, rest. split; [reflexivity | exact Hp].
Qed.

Lemma display_result_verdict prediction :
  display_result prediction = ([verdict_for prediction], Ret tt).
Proof.
  unfold display_result, verdict_for.
  destruct (py_eq_int prediction 1); reflexivity.
Qed.

(** A turn of the loop that returns found its encoder in a dictionary. *)
Lemma encode_column_ret_lookup enc df col df' :
  result_of (encode_column enc df col) = Ret df' ->
  exists d le, enc = Some d /\ d !! col = Some le.
Proof.
  unfold encode_column, try_except, encoder_getitem.
  destruct enc as [d|]; py_unfold; simpl; [| discriminate].
  destruct (d !! col) as [le|] eqn:Hle; simpl; [| discriminate].
  intros _. exists d, le. split; [reflexivity | exact Hle].
Qed.

Lemma encoder_truthy_lookup (d : gmap string label_encoder) col le :
  d !! col = Some le -> encoder_truthy (Some d) = true.
Proof.
  intros H. unfold encoder_truthy. destruct (Nat.eqb_spec (size d) 0) as [Hz|]; [| reflexivity].
  apply map_size_empty_iff in Hz. subst d. rewrite lookup_empty in H. discriminate.
Qed.

Section Handler.

Variable geodesic : point -> point -> result float.
Variable py_hash : pyval -> Z.
Variable st_dataframe : dataframe -> result unit.

Abbreviation preprocess' := (preprocess geodesic py_hash).
Abbreviation submission_body' := (submission_body geodesic py_hash st_dataframe).
Abbreviation on_submit' := (on_submit geodesic py_hash st_dataframe).

(** Preprocessing that returns a frame had a dictionary with entries. *)
Lemma preprocess_ret_truthy encoder f df :
  result_of (preprocess' encoder f) = Ret df -> encoder_truthy encoder = true.
Proof.
  intros H. apply preprocess_ret_inv in H as (distance & encoded & cc & _ & Hloop & _).
  simpl in Hloop. apply bind_ret_inv in Hloop as (df1 & Hstep & _).
  apply encode_column_ret_lookup in Hstep as (d & le & -> & Hle).
  exact (encoder_truthy_lookup _ _ _ Hle).
Qed.

(** The three ways the body of the [try] can go. *)
Lemma submission_body_preprocess_raises model encoder f e :
  result_of (preprocess' encoder f) = Raise e ->
  submission_body' model encoder f = (trace_of (preprocess' encoder f), Raise e).
Proof. intros H. unfold submission_body. exact (bind_raise _ _ _ H). Qed.

Lemma submission_body_predict_raises model encoder f df e :
  result_of (preprocess' encoder f) = Ret df ->
  result_of (predict_first model df) = Raise e ->
  submission_body' model encoder f
  = (trace_of (preprocess' encoder f) ++ trace_of (predict_first model df), Raise e).
Proof.
  intros Hpre Hp. unfold submission_body. rewrite (bind_ret _ _ _ Hpre).
  rewrite (bind_raise _ _ _ Hp). reflexivity.
Qed.

Lemma submission_body_displays model encoder f df prediction :
  result_of (preprocess' encoder f) = Ret df ->
  result_of (predict_first model df) = Ret prediction ->
  submission_body' model encoder f
  = (trace_of (preprocess' encoder f)
       ++ [ModelPredict df; verdict_for prediction;
           StExpander "See processed data sent to model"; StDataframe df],
     st_dataframe df).
Proof.
  intros Hpre Hp. unfold submission_body. rewrite (bind_ret _ _ _ Hpre).
  rewrite (bind_ret _ _ _ Hp). rewrite predict_first_trace.
  destruct (predict_first_ret_inv _ _ _ Hp) as (clf & rest & -> & _).
  rewrite display_result_verdict. reflexivity.
Qed.

(** The guard and the validation in front of the [try]. *)
Lemma on_submit_not_loaded model encoder f :
  model_truthy model && encoder_truthy encoder = false ->
  on_submit' model encoder f = ([], Raise (Exn StopException "")).
Proof.
  intros H. unfold on_submit.
  destruct (model_truthy model), (encoder_truthy encoder); try discriminate;
    reflexivity.
Qed.

Lemma on_submit_loaded model encoder f :
  model_truthy model = true -> encoder_truthy encoder = true ->
  on_submit' model encoder f
  = if required_fields_filled f
    then try_except (submission_body' model encoder f) Exception_
           (fun e => emit (generic_error e))
    else ([StError validation_message None], Ret tt).
Proof.
  intros Hm He. unfold on_submit, required_fields_filled. rewrite Hm, He.
  rewrite (bind_ret _ _ tt) by reflexivity.
  destruct (forallb str_truthy [merchant f; category f; cc_num f]).
  - destruct (try_except _ _ _) as [tr r]. reflexivity.
  - reflexivity.
Qed.

(** An exception the body raises is shown as the generic error, once, at
    the end of whatever the body had recorded. *)
Lemma on_submit_exception model encoder f e :
  model_truthy model = true -> encoder_truthy encoder = true ->
  required_fields_filled f = true ->
  result_of (submission_body' model encoder f) = Raise e ->
  isinstance e Exception_ = true ->
  on_submit' model encoder f
  = (trace_of (submission_body' model encoder f) ++ [generic_error e], Ret tt).
Proof.
  intros Hm He Hf Hraise Hexn. rewrite (on_submit_loaded _ _ _ Hm He), Hf.
  rewrite (try_except_caught _ _ _ _ Hraise Hexn). reflexivity.
Qed.

(** With the fields filled in, preprocessing and prediction returning, the
    trace is that of preprocessing, then the call to the classifier, the
    verdict and the processed row, then at most the generic error. *)
Lemma on_submit_verdict_trace model encoder f df prediction :
  required_fields_filled f = true ->
  result_of (preprocess' encoder f) = Ret df ->
  result_of (predict_first model df) = Ret prediction ->
  exists tail,
    trace_of (on_submit' model encoder f)
    = trace_of (preprocess' encoder f)
        ++ [ModelPredict df; verdict_for prediction;
            StExpander "See processed data sent to model"; StDataframe df]
        ++ tail
    /\ (tail = [] \/ exists e, tail = [generic_error e]).
Proof.
  intros Hf Hpre Hp.
  assert (model_truthy model = true) as Hm.
  { destruct (predict_first_ret_inv _ _ _ Hp) as (clf & rest & -> & _). reflexivity. }
  pose proof (preprocess_ret_truthy _ _ _ Hpre) as He.
  rewrite (on_submit_loaded _ _ _ Hm He), Hf.
  pose proof (submission_body_displays _ _ _ _ _ Hpre Hp) as Hbody.
  destruct (st_dataframe df) as [[]|e] eqn:Hshow.
  - exists []. split; [| left; reflexivity].
    rewrite (try_except_ret _ _ _ tt) by (rewrite Hbody; reflexivity).
    rewrite Hbody. simpl. reflexivity.
  - destruct (isinstance e Exception_) eqn:Hexn.
    + exists [generic_error e]. split; [| right; eauto].
      rewrite (try_except_caught _ _ _ e) by (try rewrite Hbody; reflexivity || assumption).
      rewrite Hbody. simpl. rewrite <- app_assoc. reflexivity.
    + exists []. split; [| left; reflexivity].
      rewrite (try_except_passed _ _ _ e) by (try rewrite Hbody; reflexivity || assumption).
      rewrite Hbody. simpl. reflexivity.
Qed.

End Handler.

(** ** Loading and the cache *)

Lemma load_models_body_missing d :
  missing_files d ->
  exists calls,
    (calls = [JoblibLoad model_path]
     \/ calls = [JoblibLoad model_path; JoblibLoad encoder_path])
    /\ load_models_body d = (calls ++ [StError loader_message None], Ret (None, None)).
Proof.
  unfold load_models_body, try_except.
  intros [(e & Hm & Hfnf) | (m & e & Hm & He & Hfnf)]; py_unfold; simpl.
  - exists [JoblibLoad model_path]. split; [left; reflexivity |].
    rewrite Hm. simpl. rewrite Hfnf. reflexivity.
  - exists [JoblibLoad model_path; JoblibLoad encoder_path].
    split; [right; reflexivity |].
    rewrite Hm. simpl. rewrite He. simpl. rewrite Hfnf. reflexivity.
Qed.

Lemma load_models_missing d :
  missing_files d ->
  exists calls,
    (calls = [JoblibLoad model_path]
     \/ calls = [JoblibLoad model_path; JoblibLoad encoder_path])
    /\ load_models None d
       = ((calls ++ [StError loader_message None], Ret (None, None)),
          empty_pair_cached).
Proof.
  intros H. destruct (load_models_body_missing d H) as (calls & Hcalls & Hbody).
  exists calls. split; [exact Hcalls |].
  unfold load_models. rewrite Hbody. simpl result_of. cbv iota.
  destruct Hcalls as [-> | ->]; reflexivity.
Qed.

Section Process.

Variable geodesic : point -> point -> result float.
Variable py_hash : pyval -> Z.
Variable st_dataframe : dataframe -> result unit.

Abbreviation run' := (run geodesic py_hash st_dataframe).
Abbreviation serve' := (serve geodesic py_hash st_dataframe).

(** Once the empty pair is cached, a run replays the loader's message, and
    a submission stops there; the cache stays as it is. *)
Lemma run_empty_pair_cached d f :
  run' empty_pair_cached d f
  = (([StError loader_message None], if submitted f then Stopped else Completed),
     empty_pair_cached).
Proof.
  unfold run, script, load_models, empty_pair_cached. simpl cached_elements.
  simpl cached_value. destruct (submitted f); reflexivity.
Qed.

Lemma serve_cons cache d f rest :
  serve' cache ((d, f) :: rest)
  = (fst (run' cache d f) :: fst (serve' (snd (run' cache d f)) rest),
     snd (serve' (snd (run' cache d f)) rest)).
Proof.
  cbn [serve]. destruct (run' cache d f) as [r cache'].
  cbn [fst snd]. destruct (serve' cache' rest) as [rs cache'']. reflexivity.
Qed.

Lemma serve_empty_pair_cached (requests : list (disk * form_input)) :
  Forall2 (fun req r => submitted (snd req) = true -> halted r)
          requests (fst (serve' empty_pair_cached requests)).
Proof.
  induction requests as [|[d f] rest IH].
  - constructor.
  - rewrite serve_cons, run_empty_pair_cached. cbn [fst snd].
    constructor; [| exact IH].
    cbn [fst snd]. intros ->. split; [reflexivity |].
    constructor; [reflexivity | constructor].
Qed.

(** The run in which the files are found missing. *)
Lemma run_missing d f :
  missing_files d ->
  exists calls,
    (calls = [JoblibLoad model_path]
     \/ calls = [JoblibLoad model_path; JoblibLoad encoder_path])
    /\ run' None d f
       = ((calls ++ [StError loader_message None],
           if submitted f then Stopped else Completed),
          empty_pair_cached).
Proof.
  intros H. destruct (load_models_missing d H) as (calls & Hcalls & Hload).
  exists calls. split; [exact Hcalls |].
  unfold run, script. rewrite Hload.
  destruct Hcalls as [-> | ->]; destruct (submitted f); reflexivity.
Qed.

End Process.

(** ** Counting verdicts *)

Lemma count_events_app p (a b : list event) :
  count_events p (a ++ b) = (count_events p a + count_events p b)%nat.
Proof.
  unfold count_events. induction a as [|ev a IH]; simpl; [reflexivity |].
  destruct (p ev); simpl; rewrite IH; reflexivity.
Qed.

Lemma count_events_none p (tr : list event) :
  Forall (fun ev => p ev = false) tr -> count_events p tr = 0%nat.
Proof.
  unfold count_events. induction 1 as [|ev tr Hev _ IH]; simpl; [reflexivity |].
  rewrite Hev. exact IH.
Qed.

Lemma preprocess_event_not_element ev :
  is_preprocess_event ev = true -> is_element ev = false.
Proof. destruct ev; simpl; congruence. Qed.

Lemma not_element_not_fraud ev : is_element ev = false -> is_fraud_verdict ev = false.
Proof. destruct ev; simpl; congruence. Qed.

Lemma not_element_not_legitimate ev :
  is_element ev = false -> is_legitimate_verdict ev = false.
Proof. destruct ev; simpl; congruence. Qed.

Lemma is_fraud_verdict_for prediction :
  is_fraud_verdict (verdict_for prediction) = py_eq_int prediction 1.
Proof. unfold verdict_for. destruct (py_eq_int prediction 1); reflexivity. Qed.

Lemma is_legitimate_verdict_for prediction :
  is_legitimate_verdict (verdict_for prediction) = negb (py_eq_int prediction 1).
Proof. unfold verdict_for. destruct (py_eq_int prediction 1); reflexivity. Qed.

(** * The claims *)

Section Claims.

Variable geodesic : point -> point -> result float.
Variable py_hash : pyval -> Z.
Variable st_dataframe : dataframe -> result unit.

Abbreviation preprocess' := (preprocess geodesic py_hash).
Abbreviation on_submit' := (on_submit geodesic py_hash st_dataframe).

Lemma preprocess_trace_no_elements encoder f :
  Forall (fun ev => is_element ev = false) (trace_of (preprocess' encoder f)).
Proof.
  eapply Forall_impl; [apply preprocess_trace_kind |].
  intros ev. apply preprocess_event_not_element.
Qed.

(** C1.  When the three required fields are filled in, both artifacts are
    loaded, and preprocessing and prediction return without raising, the
    handler renders exactly one verdict: either the fraud verdict once and
    the legitimate one not at all, or the other way round. *)
Theorem exactly_one_verdict clf enc f df prediction :
  required_fields_filled f = true ->
  result_of (preprocess' (Some enc) f) = Ret df ->
  result_of (predict_first (Some clf) df) = Ret prediction ->
  let tr := trace_of (on_submit' (Some clf) (Some enc) f) in
  (count_events is_fraud_verdict tr = 1%nat
   /\ count_events is_legitimate_verdict tr = 0%nat)
  \/ (count_events is_fraud_verdict tr = 0%nat
      /\ count_events is_legitimate_verdict tr = 1%nat).
Proof.
  intros Hf Hpre Hp tr.
  destruct (on_submit_verdict_trace geodesic py_hash st_dataframe
              _ _ _ _ _ Hf Hpre Hp) as (tail & Htr & Htail).
  subst tr. rewrite Htr. rewrite !count_events_app.
  pose proof (preprocess_trace_no_elements (Some enc) f) as Hpt.
  rewrite (count_events_none is_fraud_verdict (trace_of (preprocess' (Some enc) f)))
    by (eapply Forall_impl; [exact Hpt | exact not_element_not_fraud]).
  rewrite (count_events_none is_legitimate_verdict (trace_of (preprocess' (Some enc) f)))
    by (eapply Forall_impl; [exact Hpt | exact not_element_not_legitimate]).
  assert (count_events is_fraud_verdict tail = 0%nat
          /\ count_events is_legitimate_verdict tail = 0%nat) as [-> ->].
  { destruct Htail as [-> | [e ->]]; split; reflexivity. }
  unfold count_events. simpl List.filter.
  rewrite is_fraud_verdict_for, is_legitimate_verdict_for.
  destruct (py_eq_int prediction 1); [left | right]; split; reflexivity.
Qed.

(** Which page element of a successful submission a verdict can be. *)
Lemma elem_of_verdict_trace ev (pre : list event) df prediction tail :
  is_element ev = true ->
  Forall (fun x => is_element x = false) pre ->
  ev ∉ tail ->
  ev <> StExpander "See processed data sent to model" ->
  ev <> StDataframe df ->
  ev ∈ pre ++ [ModelPredict df; verdict_for prediction;
               StExpander "See processed data sent to model"; StDataframe df]
            ++ tail
  <-> ev = verdict_for prediction.
Proof.
  intros Hel Hpre Htail Hexp Hshow. split.
  - rewrite elem_of_app. intros [Hin | Hin].
    + rewrite Forall_forall in Hpre. rewrite (Hpre ev Hin) in Hel. discriminate.
    + rewrite elem_of_app in Hin. destruct Hin as [Hin | Hin]; [| contradiction].
      rewrite !elem_of_cons, elem_of_nil in Hin.
      destruct Hin as [-> | [Hv | [He | [Hd | []]]]];
        [discriminate | exact Hv | contradiction | contradiction].
  - intros ->. apply elem_of_app. right. simpl.
    apply list_elem_of_further, list_elem_of_here.
Qed.

(** C10.  Whatever value the classifier returns, the fraud verdict is
    rendered exactly when that value equals 1, and the legitimate verdict
    exactly when it does not: 0 is not singled out. *)
Theorem verdict_follows_prediction clf enc f df prediction :
  required_fields_filled f = true ->
  result_of (preprocess' (Some enc) f) = Ret df ->
  result_of (predict_first (Some clf) df) = Ret prediction ->
  let tr := trace_of (on_submit' (Some clf) (Some enc) f) in
  ((fraud_verdict ∈ tr) <-> py_eq_int prediction 1 = true)
  /\ ((legitimate_verdict ∈ tr) <-> py_eq_int prediction 1 = false).
Proof.
  intros Hf Hpre Hp tr.
  destruct (on_submit_verdict_trace geodesic py_hash st_dataframe
              _ _ _ _ _ Hf Hpre Hp) as (tail & Htr & Htail).
  subst tr. rewrite Htr.
  pose proof (preprocess_trace_no_elements (Some enc) f) as Hpt.
  assert ((fraud_verdict ∉ tail) /\ (legitimate_verdict ∉ tail)) as [Hft Hlt].
  { destruct Htail as [-> | [e ->]]; split; intros Hin;
      try (apply elem_of_nil in Hin; contradiction);
      apply list_elem_of_singleton in Hin; discriminate. }
  split.
  - rewrite (elem_of_verdict_trace fraud_verdict) by (try assumption; reflexivity || discriminate).
    unfold verdict_for. destruct (py_eq_int prediction 1); split; congruence || discriminate.
  - rewrite (elem_of_verdict_trace legitimate_verdict) by (try assumption; reflexivity || discriminate).
    unfold verdict_for. destruct (py_eq_int prediction 1); split; congruence || discriminate.
Qed.

(** C2.  For each of the columns merchant, category and gender whose
    encoder is in the dictionary: in any feature row preprocessing returns,
    the cell is the code the encoder's [transform] gave for the submitted
    value, or -1 when [transform] failed on it (with the [ValueError] of an
    unseen label); and such failures do not propagate: when the distance
    is available and every categorical column is either encoded or refused
    that way, preprocessing does return a row. *)
Theorem categorical_code_or_sentinel enc f col le :
  col ∈ categorical_col -> enc !! col = Some le ->
  (forall df, result_of (preprocess' (Some enc) f) = Ret df ->
     match le_transform le (categorical_value f col) with
     | Ret code => getitem col df = Some (VInt code)
     | Raise e => isinstance e ValueError = true
                  /\ getitem col df = Some (VInt (-1))
     end)
  /\ (distance_available geodesic f ->
      (forall c, c ∈ categorical_col ->
         exists le', enc !! c = Some le' /\ handled le' (categorical_value f c)) ->
      exists df, result_of (preprocess' (Some enc) f) = Ret df).
Proof.
  intros Hin He. split.
  - intros df Hpre. exact (preprocess_categorical _ _ _ _ _ _ _ Hin He Hpre).
  - intros Hd Hall. exact (preprocess_returns _ _ _ _ Hd Hall).
Qed.

(** The classifier is only ever called with the row preprocessing
    returned. *)
Lemma elem_of_try_except {A} ev (body : py A) cls handler :
  ev ∈ trace_of (try_except body cls handler) ->
  ev ∈ trace_of body \/ exists e, ev ∈ trace_of (handler e).
Proof.
  unfold try_except. destruct (snd body) as [a|e]; [auto |].
  destruct (isinstance e cls); [| auto].
  simpl. rewrite elem_of_app. intros [H | H]; [left; exact H | right; eauto].
Qed.

Lemma model_predict_not_in_preprocess encoder f df :
  ModelPredict df ∉ trace_of (preprocess' encoder f).
Proof.
  intros Hin. pose proof (preprocess_trace_kind geodesic py_hash encoder f) as H.
  rewrite Forall_forall in H. specialize (H _ Hin). discriminate.
Qed.

Lemma model_predict_in_body model encoder f df :
  ModelPredict df ∈ trace_of (submission_body geodesic py_hash st_dataframe model encoder f) ->
  result_of (preprocess' encoder f) = Ret df.
Proof.
  destruct (result_of (preprocess' encoder f)) as [row|e] eqn:Hpre.
  - destruct (result_of (predict_first model row)) as [prediction|e] eqn:Hp.
    + rewrite (submission_body_displays _ _ _ _ _ _ _ _ Hpre Hp). simpl trace_of.
      rewrite elem_of_app, !elem_of_cons, elem_of_nil.
      intros [Hin | [Heq | [Heq | [Heq | [Heq | []]]]]].
      * destruct (model_predict_not_in_preprocess _ _ _ Hin).
      * congruence.
      * unfold verdict_for in Heq. destruct (py_eq_int prediction 1); discriminate.
      * discriminate.
      * discriminate.
    + rewrite (submission_body_predict_raises _ _ _ _ _ _ _ _ Hpre Hp). simpl trace_of.
      rewrite predict_first_trace, elem_of_app. intros [Hin | Hin].
      * destruct (model_predict_not_in_preprocess _ _ _ Hin).
      * destruct model; [| apply elem_of_nil in Hin; contradiction].
        apply list_elem_of_singleton in Hin. congruence.
  - rewrite (submission_body_preprocess_raises _ _ _ _ _ _ _ Hpre). simpl trace_of.
    intros Hin. destruct (model_predict_not_in_preprocess _ _ _ Hin).
Qed.

Lemma model_predict_in_on_submit model encoder f df :
  ModelPredict df ∈ trace_of (on_submit' model encoder f) ->
  result_of (preprocess' encoder f) = Ret df.
Proof.
  destruct (model_truthy model && encoder_truthy encoder) eqn:Hloaded.
  - apply andb_true_iff in Hloaded as [Hm He].
    rewrite (on_submit_loaded _ _ _ _ _ _ Hm He).
    destruct (required_fields_filled f).
    + intros Hin. apply elem_of_try_except in Hin as [Hin | [e Hin]].
      * exact (model_predict_in_body _ _ _ _ Hin).
      * apply list_elem_of_singleton in Hin. discriminate.
    + intros Hin. apply list_elem_of_singleton in Hin. discriminate.
  - rewrite (on_submit_not_loaded _ _ _ _ _ _ Hloaded).
    intros Hin. apply elem_of_nil in Hin. contradiction.
Qed.

(** With the fields filled in and a classifier loaded, a row that
    preprocessing returns is handed to [predict]. *)
Lemma elem_of_try_except_body {A} ev (body : py A) cls handler :
  ev ∈ trace_of body -> ev ∈ trace_of (try_except body cls handler).
Proof.
  unfold try_except. destruct (snd body) as [a|e]; [auto |].
  destruct (isinstance e cls); [| auto].
  simpl. intros Hin. apply elem_of_app. left. exact Hin.
Qed.

Lemma model_predict_called clf encoder f df :
  required_fields_filled f = true ->
  result_of (preprocess' encoder f) = Ret df ->
  ModelPredict df ∈ trace_of (on_submit' (Some clf) encoder f).
Proof.
  intros Hf Hpre.
  rewrite (on_submit_loaded _ _ _ (Some clf) _ _ eq_refl
             (preprocess_ret_truthy _ _ _ _ _ Hpre)), Hf.
  apply elem_of_try_except_body.
  destruct (result_of (predict_first (Some clf) df)) as [prediction|e] eqn:Hp.
  - rewrite (submission_body_displays _ _ _ _ _ _ _ _ Hpre Hp). simpl trace_of.
    apply elem_of_app. right. apply list_elem_of_here.
  - rewrite (submission_body_predict_raises _ _ _ _ _ _ _ _ Hpre Hp).
    rewrite predict_first_trace. simpl trace_of.
    apply elem_of_app. right. apply list_elem_of_here.
Qed.

(** C3.  Every row preprocessing returns has exactly the nine columns
    merchant, category, amt, distance, hour, day, month, gender, cc_num,
    in that order.  That row is what is passed to the classifier: with the
    required fields filled in and a classifier loaded, the handler calls
    [predict] on the row preprocessing returned, and it never calls
    [predict] on anything else. *)
Theorem feature_row_schema model encoder f :
  (forall df, result_of (preprocess' encoder f) = Ret df ->
     columns df = ["merchant"; "category"; "amt"; "distance"; "hour"; "day";
                   "month"; "gender"; "cc_num"])
  /\ (forall df, ModelPredict df ∈ trace_of (on_submit' model encoder f) ->
        result_of (preprocess' encoder f) = Ret df
        /\ columns df = ["merchant"; "category"; "amt"; "distance"; "hour"; "day";
                         "month"; "gender"; "cc_num"])
  /\ (forall clf df,
        model = Some clf ->
        required_fields_filled f = true ->
        result_of (preprocess' encoder f) = Ret df ->
        ModelPredict df ∈ trace_of (on_submit' model encoder f)).
Proof.
  split; [| split].
  - intros df Hpre. exact (preprocess_columns _ _ _ _ _ Hpre).
  - intros df Hin. pose proof (model_predict_in_on_submit _ _ _ _ Hin) as Hpre.
    split; [exact Hpre | exact (preprocess_columns _ _ _ _ _ Hpre)].
  - intros clf df -> Hf Hpre. exact (model_predict_called _ _ _ _ Hf Hpre).
Qed.

(** C8.  The hashing step cannot fail and writes [hash(card) mod 100] into
    the card number column.  So in any row preprocessing returns, the card
    number cell is [hash(card) mod 100], a number from 0 to 99; and with the
    hash function of one process, two submissions with the same card number
    get the same cell, whatever else they differ in. *)
Theorem card_number_hash_mod_100 enc1 enc2 f1 f2 df1 df2 :
  result_of (preprocess' enc1 f1) = Ret df1 ->
  result_of (preprocess' enc2 f2) = Ret df2 ->
  (forall df card,
     getitem "cc_num" df = Some card ->
     hash_cc_num py_hash df
     = ([], Ret (setitem "cc_num" (VInt (py_hash card mod 100)) df)))
  /\ getitem "cc_num" df1 = Some (VInt (py_hash (VStr (cc_num f1)) mod 100))
  /\ 0 <= py_hash (VStr (cc_num f1)) mod 100 < 100
  /\ (cc_num f1 = cc_num f2 -> getitem "cc_num" df1 = getitem "cc_num" df2).
Proof.
  intros H1 H2. split.
  { intros df card Hcard. unfold hash_cc_num, df_getitem. rewrite Hcard. reflexivity. }
  rewrite (preprocess_cc_num _ _ _ _ _ H1), (preprocess_cc_num _ _ _ _ _ H2).
  split; [reflexivity |]. split; [apply Z.mod_pos_bound; lia |].
  intros ->. reflexivity.
Qed.

(** C4.  When a file is missing the first time the artifacts are loaded,
    the loader shows its error message and returns the empty pair; and in
    that run and every run of the process after it, whatever is on disk by
    then, a submission is stopped having done nothing but loading: no
    validation message, no preprocessing, no call to the classifier. *)
Theorem missing_artifacts_halt_submissions d f0 requests :
  missing_files d ->
  (exists calls,
     load_models_body d = (calls ++ [StError loader_message None], Ret (None, None)))
  /\ Forall2 (fun req r => submitted (snd req) = true -> halted r)
       ((d, f0) :: requests)
       (fst (serve geodesic py_hash st_dataframe None ((d, f0) :: requests))).
Proof.
  intros Hmissing. split.
  - destruct (load_models_body_missing d Hmissing) as (calls & _ & Hbody). eauto.
  - rewrite serve_cons.
    destruct (run_missing geodesic py_hash st_dataframe d f0 Hmissing)
      as (calls & Hcalls & Hrun).
    rewrite Hrun. cbn [fst snd]. constructor.
    + cbn [fst snd]. intros ->. split; [reflexivity |].
      destruct Hcalls as [-> | ->]; repeat constructor.
    + apply serve_empty_pair_cached.
Qed.

Lemma empty_field_not_filled f :
  merchant f = "" \/ category f = "" \/ cc_num f = "" ->
  required_fields_filled f = false.
Proof.
  unfold required_fields_filled. simpl.
  intros [-> | [-> | ->]]; simpl; rewrite ?andb_false_r; reflexivity.
Qed.

(** C6, as amended.  When merchant, category or card number is empty, no
    feature row is built and no prediction is attempted; if the artifacts
    are loaded the handler shows the validation error and nothing else, and
    if they are not it stops before validating and shows nothing. *)
Theorem empty_required_field_rejected model encoder f :
  merchant f = "" \/ category f = "" \/ cc_num f = "" ->
  on_submit' model encoder f
  = if model_truthy model && encoder_truthy encoder
    then ([StError validation_message None], Ret tt)
    else ([], Raise (Exn StopException "")).
Proof.
  intros Hempty. destruct (model_truthy model && encoder_truthy encoder) eqn:Hloaded.
  - apply andb_true_iff in Hloaded as [Hm He].
    rewrite (on_submit_loaded _ _ _ _ _ _ Hm He).
    rewrite (empty_field_not_filled _ Hempty). reflexivity.
  - exact (on_submit_not_loaded _ _ _ _ _ _ Hloaded).
Qed.

(** C7, as amended.  In a submission with the artifacts loaded and the
    required fields filled in, an exception derived from [Exception] that
    the distance computation, preprocessing or prediction raises is caught:
    the handler ends normally, and the only page element it has produced is
    one generic error message carrying the exception's text.  One raised
    while the processed row is being rendered is caught in the same way,
    after the verdict has been shown.  (Loading the artifacts happens
    outside this handler.) *)
Theorem exception_surfaces_as_generic_error model encoder f e :
  model_truthy model = true -> encoder_truthy encoder = true ->
  required_fields_filled f = true ->
  isinstance e Exception_ = true ->
  (result_of (preprocess' encoder f) = Raise e
   \/ (exists df, result_of (preprocess' encoder f) = Ret df
                  /\ result_of (predict_first model df) = Raise e) ->
   result_of (on_submit' model encoder f) = Ret tt
   /\ exists calls,
        trace_of (on_submit' model encoder f) = calls ++ [generic_error e]
        /\ Forall (fun ev => is_element ev = false) calls)
  /\ (forall df prediction,
        result_of (preprocess' encoder f) = Ret df ->
        result_of (predict_first model df) = Ret prediction ->
        st_dataframe df = Raise e ->
        on_submit' model encoder f
        = (trace_of (preprocess' encoder f)
             ++ [ModelPredict df; verdict_for prediction;
                 StExpander "See processed data sent to model"; StDataframe df;
                 generic_error e],
           Ret tt)).
Proof.
  intros Hm He Hf Hexn. split.
  - intros [Hpre | (df & Hpre & Hp)].
    + pose proof (submission_body_preprocess_raises geodesic py_hash st_dataframe
                    model _ _ _ Hpre) as Hbody.
      rewrite (on_submit_exception _ _ _ _ _ _ e Hm He Hf)
        by (try rewrite Hbody; reflexivity || assumption).
      split; [reflexivity |]. rewrite Hbody.
      exists (trace_of (preprocess' encoder f)).
      split; [reflexivity | apply preprocess_trace_no_elements].
    + pose proof (submission_body_predict_raises geodesic py_hash st_dataframe
                    _ _ _ _ _ Hpre Hp) as Hbody.
      rewrite (on_submit_exception _ _ _ _ _ _ e Hm He Hf)
        by (try rewrite Hbody; reflexivity || assumption).
      split; [reflexivity |]. rewrite Hbody.
      exists (trace_of (preprocess' encoder f) ++ trace_of (predict_first model df)).
      split; [reflexivity |]. apply Forall_app. split.
      * apply preprocess_trace_no_elements.
      * rewrite predict_first_trace. destruct model; repeat constructor.
  - intros df prediction Hpre Hp Hshow.
    pose proof (submission_body_displays geodesic py_hash st_dataframe
                  _ _ _ _ _ Hpre Hp) as Hbody.
    rewrite Hshow in Hbody.
    rewrite (on_submit_exception _ _ _ _ _ _ e Hm He Hf)
      by (try rewrite Hbody; reflexivity || assumption).
    rewrite Hbody. simpl trace_of. rewrite <- app_assoc. reflexivity.
Qed.

End Claims.

(** * The claims in the sample world *)

Abbreviation sample_preprocess := (preprocess Sample.geodesic Sample.py_hash).
Abbreviation sample_on_submit :=
  (on_submit Sample.geodesic Sample.py_hash Sample.st_dataframe).
Abbreviation sample_run := (run Sample.geodesic Sample.py_hash Sample.st_dataframe).

(** The scenario of the specification, run from a cold start. *)
Example acme_is_legitimate :
  fst (sample_run None Sample.disk_ok Sample.acme)
  = ([JoblibLoad "fraud_detection_model.jb"; JoblibLoad "label_encoder.jb";
      Geodesic (40%float, (-73)%float) (40.1%float, (-73.1)%float);
      PdDataFrame
        [("merchant", VStr "Acme"); ("category", VStr "grocery");
         ("amt", VFloat 45.5); ("distance", VFloat 15.725347706807296);
         ("hour", VInt 14); ("day", VInt 5); ("month", VInt 3);
         ("gender", VStr "Male"); ("cc_num", VStr "4111111111111111")];
      LeTransform "merchant" (VStr "Acme");
      LeTransform "category" (VStr "grocery");
      LeTransform "gender" (VStr "Male");
      ModelPredict
        [("merchant", VInt 0); ("category", VInt 0);
         ("amt", VFloat 45.5); ("distance", VFloat 15.725347706807296);
         ("hour", VInt 14); ("day", VInt 5); ("month", VInt 3);
         ("gender", VInt 1); ("cc_num", VInt 80)];
      legitimate_verdict;
      StExpander "See processed data sent to model";
      StDataframe
        [("merchant", VInt 0); ("category", VInt 0);
         ("amt", VFloat 45.5); ("distance", VFloat 15.725347706807296);
         ("hour", VInt 14); ("day", VInt 5); ("month", VInt 3);
         ("gender", VInt 1); ("cc_num", VInt 80)]],
     Completed).
Proof. vm_compute. reflexivity. Qed.

Lemma exactly_one_verdict_witness :
  required_fields_filled Sample.acme_large = true
  /\ (let tr := trace_of (sample_on_submit (Some Sample.model)
                            (Some Sample.encoder) Sample.acme_large) in
      (count_events is_fraud_verdict tr = 1%nat
       /\ count_events is_legitimate_verdict tr = 0%nat)
      \/ (count_events is_fraud_verdict tr = 0%nat
          /\ count_events is_legitimate_verdict tr = 1%nat)).
Proof.
  split; [reflexivity |].
  eapply (exactly_one_verdict Sample.geodesic Sample.py_hash Sample.st_dataframe
            Sample.model Sample.encoder Sample.acme_large); reflexivity.
Defined.

Lemma feature_row_schema_witness :
  required_fields_filled Sample.acme = true
  /\ result_of (sample_preprocess (Some Sample.encoder) Sample.acme) = Ret Edge.acme_row
  /\ columns Edge.acme_row
     = ["merchant"; "category"; "amt"; "distance"; "hour"; "day"; "month";
        "gender"; "cc_num"]
  /\ ModelPredict Edge.acme_row
     ∈ trace_of (sample_on_submit (Some Sample.model) (Some Sample.encoder) Sample.acme)
  /\ (forall df,
        ModelPredict df
        ∈ trace_of (sample_on_submit (Some Sample.model) (Some Sample.encoder)
                      Sample.acme) ->
        df = Edge.acme_row).
Proof.
  assert (result_of (sample_preprocess (Some Sample.encoder) Sample.acme)
          = Ret Edge.acme_row) as Hrow by reflexivity.
  destruct (feature_row_schema Sample.geodesic Sample.py_hash Sample.st_dataframe
              (Some Sample.model) (Some Sample.encoder) Sample.acme)
    as (Hcolumns & Honly & Hcalled).
  split; [reflexivity |]. split; [exact Hrow |].
  split; [exact (Hcolumns Edge.acme_row Hrow) |].
  split; [exact (Hcalled Sample.model Edge.acme_row eq_refl eq_refl Hrow) |].
  intros df Hin. destruct (Honly df Hin) as [Hpre _].
  rewrite Hrow in Hpre. injection Hpre as <-. reflexivity.
Defined.

Lemma verdict_follows_prediction_witness :
  required_fields_filled Sample.acme = true
  /\ (let tr := trace_of (sample_on_submit (Some Sample.odd_model)
                            (Some Sample.encoder) Sample.acme) in
      ((fraud_verdict ∈ tr) <-> py_eq_int (VInt 2) 1 = true)
      /\ ((legitimate_verdict ∈ tr) <-> py_eq_int (VInt 2) 1 = false)).
Proof.
  split; [reflexivity |].
  eapply (verdict_follows_prediction Sample.geodesic Sample.py_hash
            Sample.st_dataframe Sample.odd_model Sample.encoder Sample.acme);
    reflexivity.
Defined.

Lemma categorical_code_or_sentinel_witness :
  "merchant" ∈ categorical_col
  /\ Sample.encoder !! "merchant" = Some (Sample.fitted ["Acme"; "Globex"])
  /\ (forall df, result_of (sample_preprocess (Some Sample.encoder) Sample.hooli) = Ret df ->
        getitem "merchant" df = Some (VInt (-1)))
  /\ (forall df, result_of (sample_preprocess (Some Sample.encoder) Sample.acme_large) = Ret df ->
        getitem "category" df = Some (VInt 1)).
Proof.
  assert ("merchant" ∈ categorical_col) as Hm by apply list_elem_of_here.
  assert ("category" ∈ categorical_col) as Hc
    by apply list_elem_of_further, list_elem_of_here.
  split; [exact Hm |]. split; [reflexivity |]. split.
  - intros df Hpre.
    exact (proj2 (proj1 (categorical_code_or_sentinel Sample.geodesic Sample.py_hash
                           Sample.encoder Sample.hooli "merchant"
                           (Sample.fitted ["Acme"; "Globex"]) Hm eq_refl) df Hpre)).
  - intros df Hpre.
    exact (proj1 (categorical_code_or_sentinel Sample.geodesic Sample.py_hash
                    Sample.encoder Sample.acme_large "category"
                    (Sample.fitted ["grocery"; "travel"]) Hc eq_refl) df Hpre).
Defined.

Lemma card_number_hash_mod_100_witness :
  cc_num Sample.acme = cc_num Sample.acme_large
  /\ exists df1 df2,
       result_of (sample_preprocess (Some Sample.encoder) Sample.acme) = Ret df1
       /\ result_of (sample_preprocess (Some Sample.encoder) Sample.acme_large) = Ret df2
       /\ getitem "cc_num" df1 = Some (VInt 80)
       /\ getitem "cc_num" df1 = getitem "cc_num" df2.
Proof.
  split; [reflexivity |]. eexists. eexists.
  split; [reflexivity |]. split; [reflexivity |].
  pose proof (card_number_hash_mod_100 Sample.geodesic Sample.py_hash
                (Some Sample.encoder) (Some Sample.encoder)
                Sample.acme Sample.acme_large _ _ eq_refl eq_refl)
    as (_ & Hcell & _ & Hsame).
  split; [exact Hcell | exact (Hsame eq_refl)].
Defined.

Lemma missing_artifacts_halt_submissions_witness :
  missing_files Sample.disk_missing
  /\ fst (serve Sample.geodesic Sample.py_hash Sample.st_dataframe None
            [(Sample.disk_missing, Sample.acme);
             (Sample.disk_ok, Sample.acme_large);
             (Sample.disk_ok, Sample.no_merchant)])
     = [([JoblibLoad model_path; StError loader_message None], Stopped);
        ([StError loader_message None], Stopped);
        ([StError loader_message None], Stopped)]
  /\ Forall2 (fun req r => submitted (snd req) = true -> halted r)
       [(Sample.disk_missing, Sample.acme);
        (Sample.disk_ok, Sample.acme_large);
        (Sample.disk_ok, Sample.no_merchant)]
       (fst (serve Sample.geodesic Sample.py_hash Sample.st_dataframe None
               [(Sample.disk_missing, Sample.acme);
                (Sample.disk_ok, Sample.acme_large);
                (Sample.disk_ok, Sample.no_merchant)])).
Proof.
  assert (missing_files Sample.disk_missing) as Hmissing.
  { left. eexists. split; reflexivity. }
  split; [exact Hmissing |]. split; [reflexivity |].
  exact (proj2 (missing_artifacts_halt_submissions Sample.geodesic Sample.py_hash
                  Sample.st_dataframe Sample.disk_missing Sample.acme
                  [(Sample.disk_ok, Sample.acme_large);
                   (Sample.disk_ok, Sample.no_merchant)] Hmissing)).
Defined.

Lemma empty_required_field_rejected_witness :
  (merchant Sample.no_merchant = ""
   \/ category Sample.no_merchant = "" \/ cc_num Sample.no_merchant = "")
  /\ sample_on_submit (Some Sample.model) (Some Sample.encoder) Sample.no_merchant
     = ([StError validation_message None], Ret tt).
Proof.
  assert (merchant Sample.no_merchant = ""
          \/ category Sample.no_merchant = "" \/ cc_num Sample.no_merchant = "")
    as Hempty by (left; reflexivity).
  split; [exact Hempty |].
  exact (empty_required_field_rejected Sample.geodesic Sample.py_hash
           Sample.st_dataframe (Some Sample.model) (Some Sample.encoder)
           Sample.no_merchant Hempty).
Defined.

(** C6 as stated fails when the artifacts are missing: the submission with
    an empty merchant is stopped by the guard of line 93 before line 97 is
    reached, and the validation error is never shown. *)
Lemma empty_merchant_without_artifacts :
  merchant Sample.no_merchant = ""
  /\ fst (sample_run None Sample.disk_missing Sample.no_merchant)
     = ([JoblibLoad model_path; StError loader_message None], Stopped)
  /\ StError validation_message None
     ∉ fst (fst (sample_run None Sample.disk_missing Sample.no_merchant)).
Proof.
  split; [reflexivity |]. split; [reflexivity |].
  intros Hin. vm_compute in Hin.
  apply elem_of_cons in Hin as [Heq | Hin]; [discriminate |].
  apply elem_of_cons in Hin as [Heq | Hin]; [discriminate |].
  apply elem_of_nil in Hin. exact Hin.
Qed.

Lemma exception_surfaces_as_generic_error_witness :
  model_truthy (Some Sample.broken_model) = true
  /\ encoder_truthy (Some Sample.encoder) = true
  /\ required_fields_filled Sample.acme = true
  /\ result_of (sample_on_submit (Some Sample.broken_model) (Some Sample.encoder)
                  Sample.acme) = Ret tt
  /\ exists calls,
       trace_of (sample_on_submit (Some Sample.broken_model) (Some Sample.encoder)
                   Sample.acme)
       = calls ++ [StError "An error occurred during prediction: Number of features of the model must match the input." None]
       /\ Forall (fun ev => is_element ev = false) calls.
Proof.
  split; [reflexivity |]. split; [reflexivity |]. split; [reflexivity |].
  refine (proj1 (exception_surfaces_as_generic_error Sample.geodesic Sample.py_hash
                   Sample.st_dataframe (Some Sample.broken_model)
                   (Some Sample.encoder) Sample.acme
                   (Exn ValueError "Number of features of the model must match the input.")
                   eq_refl eq_refl eq_refl eq_refl) _).
  right. eexists. split; reflexivity.
Defined.

(** C7 as stated fails for artifact loading, which line 28 runs outside the
    [try] of lines 100-139: an exception of [joblib.load] other than a
    missing file is not caught at all, and a missing file is reported by
    the loader's own message, not by the generic one.  And when rendering
    the processed row fails, the generic message comes after a verdict that
    is already on the page. *)
Lemma loading_exception_not_generic_error :
  fst (sample_run None Sample.disk_corrupt Sample.acme)
  = ([JoblibLoad model_path], Crashed (Exn Exception_ "invalid load key"))
  /\ fst (sample_run None Sample.disk_missing Sample.acme)
     = ([JoblibLoad model_path; StError loader_message None], Stopped)
  /\ exists calls df,
       on_submit Sample.geodesic Sample.py_hash Sample.st_dataframe_failing
         (Some Sample.model) (Some Sample.encoder) Sample.acme
       = (calls ++ [ModelPredict df; legitimate_verdict;
                    StExpander "See processed data sent to model"; StDataframe df;
                    StError "An error occurred during prediction: Could not convert dataframe to Arrow table" None],
          Ret tt).
Proof.
  split; [reflexivity |]. split; [reflexivity |].
  exists (trace_of (sample_preprocess (Some Sample.encoder) Sample.acme)).
  eexists. vm_compute. reflexivity.
Qed.

(** * Further properties of the script *)

(** ** The handler, by cases *)

Lemma try_except_surface (body : py unit) e :
  result_of body = Raise e ->
  try_except body Exception_ (fun e => emit (generic_error e))
  = (trace_of body ++ trace_of (surface e), result_of (surface e)).
Proof.
  intros Hraise. unfold surface. destruct (isinstance e Exception_) eqn:Hexn.
  - rewrite (try_except_caught _ _ _ _ Hraise Hexn). reflexivity.
  - rewrite (try_except_passed _ _ _ _ Hraise Hexn).
    destruct body as [tr r]. simpl in *. subst r. rewrite app_nil_r. reflexivity.
Qed.

Lemma surface_no_escape e :
  match result_of (surface e) with
  | Ret _ => True
  | Raise e' => isinstance e' Exception_ = false
  end.
Proof.
  unfold surface. destruct (isinstance e Exception_) eqn:Hexn; simpl; [exact I | exact Hexn].
Qed.

Lemma surface_trace e :
  trace_of (surface e) = [] \/ trace_of (surface e) = [generic_error e].
Proof. unfold surface. destruct (isinstance e Exception_); [right | left]; reflexivity. Qed.

Section HandlerCases.

Variable geodesic : point -> point -> result float.
Variable py_hash : pyval -> Z.
Variable st_dataframe : dataframe -> result unit.

Abbreviation preprocess' := (preprocess geodesic py_hash).
Abbreviation submission_body' := (submission_body geodesic py_hash st_dataframe).
Abbreviation on_submit' := (on_submit geodesic py_hash st_dataframe).
Abbreviation view' := (submission_view geodesic py_hash st_dataframe).

(** Every submission goes one of the six ways. *)
Lemma on_submit_view model encoder f :
  view' model encoder f (on_submit' model encoder f).
Proof.
  destruct (artifacts_loaded model encoder) eqn:Hloaded.
  2: { rewrite (on_submit_not_loaded _ _ _ _ _ _ Hloaded). constructor. exact Hloaded. }
  pose proof Hloaded as Hl. apply andb_true_iff in Hl as [Hm He].
  rewrite (on_submit_loaded _ _ _ _ _ _ Hm He).
  destruct (required_fields_filled f) eqn:Hf; [| constructor; assumption].
  destruct (result_of (preprocess' encoder f)) as [df|e] eqn:Hpre.
  - destruct (result_of (predict_first model df)) as [prediction|e] eqn:Hp.
    + pose proof (submission_body_displays geodesic py_hash st_dataframe
                    _ _ _ _ _ Hpre Hp) as Hbody.
      destruct (st_dataframe df) as [[]|e] eqn:Hshow.
      * rewrite (try_except_ret _ _ _ tt) by (rewrite Hbody; reflexivity).
        rewrite Hbody. apply Displayed; assumption.
      * rewrite (try_except_surface _ e) by (rewrite Hbody; reflexivity).
        rewrite Hbody. simpl trace_of. rewrite <- app_assoc.
        apply DisplayFailed; assumption.
    + pose proof (submission_body_predict_raises geodesic py_hash st_dataframe
                    _ _ _ _ _ Hpre Hp) as Hbody.
      rewrite (try_except_surface _ e) by (rewrite Hbody; reflexivity).
      rewrite Hbody. simpl trace_of. rewrite <- app_assoc.
      apply PredictFailed; assumption.
  - pose proof (submission_body_preprocess_raises geodesic py_hash st_dataframe
                  model _ _ _ Hpre) as Hbody.
    rewrite (try_except_surface _ e) by (rewrite Hbody; reflexivity).
    rewrite Hbody. apply PreprocessFailed; assumption.
Qed.

End HandlerCases.

(** ** What the handler shows, and when *)

Lemma is_verdict_element ev : is_verdict ev = true -> is_element ev = true.
Proof.
  unfold is_verdict. destruct ev as [| body [icon|] | body [icon|] | | | | | |];
    simpl; intros H; reflexivity || discriminate.
Qed.

Lemma generic_error_not_validation e :
  generic_error e <> StError validation_message None.
Proof.
  unfold generic_error, generic_message, validation_message. simpl. discriminate.
Qed.

Lemma verdict_not_validation prediction :
  verdict_for prediction <> StError validation_message None.
Proof. unfold verdict_for. destruct (py_eq_int prediction 1); discriminate. Qed.

Lemma str_truthy_false s : str_truthy s = false <-> s = "".
Proof. destruct s; simpl; split; congruence. Qed.

Lemma required_fields_filled_false f :
  required_fields_filled f = false
  <-> merchant f = "" \/ category f = "" \/ cc_num f = "".
Proof.
  unfold required_fields_filled. simpl. rewrite andb_true_r.
  rewrite !andb_false_iff, !str_truthy_false. reflexivity.
Qed.

Section Shown.

Variable geodesic : point -> point -> result float.
Variable py_hash : pyval -> Z.
Variable st_dataframe : dataframe -> result unit.

Abbreviation preprocess' := (preprocess geodesic py_hash).
Abbreviation on_submit' := (on_submit geodesic py_hash st_dataframe).

Lemma element_not_in_preprocess ev encoder f :
  is_element ev = true -> ev ∉ trace_of (preprocess' encoder f).
Proof.
  intros Hel Hin.
  pose proof (preprocess_trace_no_elements geodesic py_hash encoder f) as H.
  rewrite Forall_forall in H. rewrite (H ev Hin) in Hel. discriminate.
Qed.

Lemma element_in_surface ev e :
  ev ∈ trace_of (surface e) -> ev = generic_error e.
Proof.
  destruct (surface_trace e) as [-> | ->]; intros Hin.
  - apply elem_of_nil in Hin. contradiction.
  - apply list_elem_of_singleton in Hin. exact Hin.
Qed.

(** Where a page element in the trace of a submission can come from. *)
Lemma element_in_on_submit ev model encoder f :
  is_element ev = true ->
  ev ∈ trace_of (on_submit' model encoder f) ->
  artifacts_loaded model encoder = true
  /\ ((required_fields_filled f = false /\ ev = StError validation_message None)
      \/ (required_fields_filled f = true /\ exists e, ev = generic_error e)
      \/ (required_fields_filled f = true
          /\ exists df prediction,
               result_of (preprocess' encoder f) = Ret df
               /\ result_of (predict_first model df) = Ret prediction
               /\ (ev = verdict_for prediction
                   \/ ev = StExpander "See processed data sent to model"
                   \/ ev = StDataframe df))).
Proof.
  intros Hel.
  destruct (on_submit_view geodesic py_hash st_dataframe model encoder f)
    as [Hl | Hl Hf | e Hl Hf Hpre | df e Hl Hf Hpre Hp
        | df prediction Hl Hf Hpre Hp Hshow | df prediction e Hl Hf Hpre Hp Hshow];
    simpl trace_of; intros Hin.
  - apply elem_of_nil in Hin. contradiction.
  - apply list_elem_of_singleton in Hin. split; [exact Hl |]. left. split; assumption.
  - split; [exact Hl |]. right. left. split; [exact Hf |].
    apply elem_of_app in Hin as [Hin | Hin].
    + destruct (element_not_in_preprocess _ _ _ Hel Hin).
    + exists e. exact (element_in_surface _ _ Hin).
  - split; [exact Hl |]. right. left. split; [exact Hf |].
    apply elem_of_app in Hin as [Hin | Hin];
      [destruct (element_not_in_preprocess _ _ _ Hel Hin) |].
    apply elem_of_app in Hin as [Hin | Hin].
    + rewrite predict_first_trace in Hin. destruct model.
      * apply list_elem_of_singleton in Hin. subst ev. discriminate.
      * apply elem_of_nil in Hin. contradiction.
    + exists e. exact (element_in_surface _ _ Hin).
  - split; [exact Hl |]. right. right. split; [exact Hf |].
    exists df, prediction. split; [exact Hpre |]. split; [exact Hp |].
    apply elem_of_app in Hin as [Hin | Hin];
      [destruct (element_not_in_preprocess _ _ _ Hel Hin) |].
    rewrite !elem_of_cons, elem_of_nil in Hin.
    destruct Hin as [-> | [-> | [-> | [-> | []]]]]; [discriminate | auto ..].
  - split; [exact Hl |].
    apply elem_of_app in Hin as [Hin | Hin];
      [destruct (element_not_in_preprocess _ _ _ Hel Hin) |].
    rewrite !elem_of_cons in Hin.
    destruct Hin as [-> | [Hev | [Hev | [Hev | Hin]]]]; [discriminate | | | |].
    1-3: right; right; split; [exact Hf |];
         exists df, prediction; split; [exact Hpre |]; split; [exact Hp |]; auto.
    right. left. split; [exact Hf |]. exists e. exact (element_in_surface _ _ Hin).
Qed.

(** X1.  No exception that derives from [Exception] leaves the handler:
    whatever the libraries, the artifacts and the form do, a submission
    ends normally or with [st.stop()] or an exception outside the
    [Exception] hierarchy. *)
Theorem handler_lets_no_exception_escape model encoder f :
  match result_of (on_submit' model encoder f) with
  | Ret _ => True
  | Raise e => isinstance e Exception_ = false
  end.
Proof.
  destruct (on_submit_view geodesic py_hash st_dataframe model encoder f);
    simpl result_of; try exact I; try reflexivity; apply surface_no_escape.
Qed.

(** X3.  A verdict is only ever shown for a submission with the artifacts
    loaded and the required fields filled in, for which preprocessing
    returned a row and the classifier returned a label, and it is the
    verdict for that label. *)
Theorem verdict_only_after_prediction model encoder f ev :
  is_verdict ev = true ->
  ev ∈ trace_of (on_submit' model encoder f) ->
  artifacts_loaded model encoder = true
  /\ required_fields_filled f = true
  /\ exists df prediction,
       result_of (preprocess' encoder f) = Ret df
       /\ result_of (predict_first model df) = Ret prediction
       /\ ev = verdict_for prediction.
Proof.
  intros Hv Hin.
  destruct (element_in_on_submit _ _ _ _ (is_verdict_element _ Hv) Hin)
    as [Hl [[_ ->] | [[_ [e ->]] | [Hf (df & prediction & Hpre & Hp & Hev)]]]];
    try discriminate.
  split; [exact Hl |]. split; [exact Hf |]. exists df, prediction.
  split; [exact Hpre |]. split; [exact Hp |].
  destruct Hev as [-> | [-> | ->]]; [reflexivity | discriminate | discriminate].
Qed.

(** X4.  The row shown under "See processed data sent to model" is the row
    preprocessing returned, and the classifier was called with that same
    row. *)
Theorem displayed_row_is_predicted_row model encoder f df :
  StDataframe df ∈ trace_of (on_submit' model encoder f) ->
  result_of (preprocess' encoder f) = Ret df
  /\ ModelPredict df ∈ trace_of (on_submit' model encoder f).
Proof.
  intros Hin.
  destruct (element_in_on_submit _ _ _ _ (eq_refl : is_element (StDataframe df) = true) Hin)
    as [Hl [[_ Heq] | [[_ [e Heq]] | [Hf (row & prediction & Hpre & Hp & Hev)]]]];
    try discriminate.
  assert (row = df) as ->.
  { destruct Hev as [Heq | [Heq | Heq]]; try discriminate; [| congruence].
    unfold verdict_for in Heq. destruct (py_eq_int prediction 1); discriminate. }
  split; [exact Hpre |].
  destruct (on_submit_verdict_trace geodesic py_hash st_dataframe
              _ _ _ _ _ Hf Hpre Hp) as (tail & -> & _).
  apply elem_of_app. right. apply list_elem_of_here.
Qed.

(** X5.  The validation message is shown exactly when the artifacts are
    loaded and one of merchant, category and card number is empty: never
    for a complete form, and never when the guard of line 93 stops the
    run. *)
Theorem validation_message_iff model encoder f :
  StError validation_message None ∈ trace_of (on_submit' model encoder f)
  <-> artifacts_loaded model encoder = true
      /\ (merchant f = "" \/ category f = "" \/ cc_num f = "").
Proof.
  split.
  - intros Hin.
    destruct (element_in_on_submit _ _ _ _
                (eq_refl : is_element (StError validation_message None) = true) Hin)
      as [Hl [[Hf _] | [[_ [e Heq]] | [_ (df & prediction & _ & _ & Hev)]]]].
    + split; [exact Hl | apply required_fields_filled_false, Hf].
    + symmetry in Heq. destruct (generic_error_not_validation _ Heq).
    + destruct Hev as [Heq | [Heq | Heq]]; try discriminate.
      symmetry in Heq. destruct (verdict_not_validation _ Heq).
  - intros [Hl Hempty]. apply andb_true_iff in Hl as [Hm He].
    rewrite (on_submit_loaded _ _ _ _ _ _ Hm He).
    apply required_fields_filled_false in Hempty. rewrite Hempty.
    apply list_elem_of_here.
Qed.

End Shown.

(** ** The processed row, cell by cell *)

Lemma bind_pair_ret {A B} (tr : list event) (a : A) (f : A -> py B) :
  (tr, Ret a) ≫= f = (tr ++ trace_of (f a), result_of (f a)).
Proof. reflexivity. Qed.

Lemma encode_column_ret_full enc df col cell df' :
  getitem col df = Some cell ->
  result_of (encode_column enc df col) = Ret df' ->
  exists z, encode_column enc df col
            = ([LeTransform col cell], Ret (setitem col (VInt z) df)).
Proof.
  intros Hcell. unfold encode_column, try_except, encoder_getitem, df_getitem.
  rewrite Hcell. destruct enc as [d|]; py_unfold; simpl; [| discriminate].
  destruct (d !! col) as [le|]; simpl; [| discriminate].
  destruct (le_transform le cell) as [code|e]; simpl.
  - intros _. exists code. reflexivity.
  - destruct (isinstance e ValueError); simpl; [| discriminate].
    intros _. exists (-1). reflexivity.
Qed.

Lemma haversine_ret_full geodesic lat1 lon1 lat2 lon2 distance :
  result_of (haversine geodesic lat1 lon1 lat2 lon2) = Ret distance ->
  haversine geodesic lat1 lon1 lat2 lon2
  = ([Geodesic (lat1, lon1) (lat2, lon2)],
     Ret match geodesic (lat1, lon1) (lat2, lon2) with
         | Ret km => VFloat km
         | Raise _ => VInt 0
         end).
Proof.
  destruct (geodesic (lat1, lon1) (lat2, lon2)) as [km|e] eqn:Hg.
  - intros _. exact (haversine_returns _ _ _ _ _ _ Hg).
  - destruct (isinstance e ValueError) eqn:Hv.
    + intros _. exact (haversine_rejected _ _ _ _ _ _ Hg Hv).
    + rewrite (haversine_raises _ _ _ _ _ _ Hg Hv). discriminate.
Qed.

Section ProcessedRow.

Variable geodesic : point -> point -> result float.
Variable py_hash : pyval -> Z.

Abbreviation preprocess' := (preprocess geodesic py_hash).

(** Preprocessing that returns, written out: its calls and its row. *)
Lemma preprocess_ret_full encoder f df :
  result_of (preprocess' encoder f) = Ret df ->
  exists m c g,
    preprocess' encoder f
    = ([Geodesic (lat f, long f) (merch_lat f, merch_long f);
        PdDataFrame (input_row f (distance_cell geodesic f));
        LeTransform "merchant" (VStr (merchant f));
        LeTransform "category" (VStr (category f));
        LeTransform "gender" (VStr (gender_label (gender f)))],
       Ret [("merchant", VInt m); ("category", VInt c); ("amt", VFloat (amt f));
            ("distance", distance_cell geodesic f);
            ("hour", VInt (hour f)); ("day", VInt (day f));
            ("month", VInt (month f)); ("gender", VInt g);
            ("cc_num", VInt (py_hash (VStr (cc_num f)) mod 100))]).
Proof.
  intros H.
  apply preprocess_ret_inv in H as (distance & encoded & cc & Hd & Hloop & _ & _).
  pose proof (haversine_ret_full _ _ _ _ _ _ Hd) as Hfull.
  fold (distance_cell geodesic f) in Hfull.
  rewrite Hfull in Hd. injection Hd as <-.
  cbn [for_each categorical_col] in Hloop.
  apply bind_ret_inv in Hloop as (df1 & Hs1 & Hloop).
  assert (getitem "merchant" (input_row f (distance_cell geodesic f))
          = Some (VStr (merchant f))) as Hc1 by reflexivity.
  destruct (encode_column_ret_full _ _ _ _ _ Hc1 Hs1) as [m Hm].
  assert (df1 = setitem "merchant" (VInt m) (input_row f (distance_cell geodesic f)))
    as -> by (rewrite Hm in Hs1; injection Hs1 as Heq; symmetry; exact Heq).
  apply bind_ret_inv in Hloop as (df2 & Hs2 & Hloop).
  assert (getitem "category"
            (setitem "merchant" (VInt m) (input_row f (distance_cell geodesic f)))
          = Some (VStr (category f))) as Hc2 by reflexivity.
  destruct (encode_column_ret_full _ _ _ _ _ Hc2 Hs2) as [c Hc].
  assert (df2 = setitem "category" (VInt c)
                  (setitem "merchant" (VInt m)
                     (input_row f (distance_cell geodesic f))))
    as -> by (rewrite Hc in Hs2; injection Hs2 as Heq; symmetry; exact Heq).
  apply bind_ret_inv in Hloop as (df3 & Hs3 & Hloop).
  assert (getitem "gender"
            (setitem "category" (VInt c)
               (setitem "merchant" (VInt m) (input_row f (distance_cell geodesic f))))
          = Some (VStr (gender_label (gender f)))) as Hc3 by reflexivity.
  destruct (encode_column_ret_full _ _ _ _ _ Hc3 Hs3) as [g Hg].
  exists m, c, g. unfold preprocess. rewrite Hfull, bind_pair_ret. cbv beta zeta.
  cbn [for_each categorical_col]. unfold emit at 1. rewrite bind_pair_ret.
  rewrite Hm, bind_pair_ret. rewrite Hc, bind_pair_ret. rewrite Hg, bind_pair_ret.
  reflexivity.
Qed.

End ProcessedRow.

Lemma for_each_encode_ret_lookup enc (cols : list string) : forall df df' col,
  col ∈ cols ->
  result_of (for_each cols (encode_column enc) df) = Ret df' ->
  exists d le, enc = Some d /\ d !! col = Some le.
Proof.
  induction cols as [|c rest IH]; intros df df' col Hin Hret.
  - apply elem_of_nil in Hin. contradiction.
  - cbn [for_each] in Hret. apply bind_ret_inv in Hret as (df1 & Hstep & Hrest).
    apply elem_of_cons in Hin as [-> | Hin].
    + exact (encode_column_ret_lookup _ _ _ _ Hstep).
    + exact (IH _ _ _ Hin Hrest).
Qed.

Lemma not_element_not_verdict ev : is_element ev = false -> is_verdict ev = false.
Proof.
  intros H. destruct (is_verdict ev) eqn:Hv; [| reflexivity].
  rewrite (is_verdict_element _ Hv) in H. discriminate.
Qed.

Lemma is_verdict_verdict_for prediction : is_verdict (verdict_for prediction) = true.
Proof. unfold verdict_for. destruct (py_eq_int prediction 1); reflexivity. Qed.

Lemma count_verdicts_surface e : count_events is_verdict (trace_of (surface e)) = 0%nat.
Proof. destruct (surface_trace e) as [-> | ->]; reflexivity. Qed.

Section MoreOfTheHandler.

Variable geodesic : point -> point -> result float.
Variable py_hash : pyval -> Z.
Variable st_dataframe : dataframe -> result unit.

Abbreviation preprocess' := (preprocess geodesic py_hash).
Abbreviation on_submit' := (on_submit geodesic py_hash st_dataframe).

Lemma count_verdicts_preprocess encoder f :
  count_events is_verdict (trace_of (preprocess' encoder f)) = 0%nat.
Proof.
  apply count_events_none. eapply Forall_impl.
  - apply (preprocess_trace_no_elements geodesic py_hash).
  - exact not_element_not_verdict.
Qed.

(** X2.  No submission, whatever happens in it, shows more than one
    verdict. *)
Theorem at_most_one_verdict model encoder f :
  (count_events is_verdict (trace_of (on_submit' model encoder f)) <= 1)%nat.
Proof.
  destruct (on_submit_view geodesic py_hash st_dataframe model encoder f)
    as [Hl | Hl Hf | e Hl Hf Hpre | df e Hl Hf Hpre Hp
        | df prediction Hl Hf Hpre Hp Hshow | df prediction e Hl Hf Hpre Hp Hshow];
    simpl trace_of; rewrite ?count_events_app, ?count_verdicts_preprocess,
                      ?count_verdicts_surface, ?predict_first_trace.
  - unfold count_events. simpl. lia.
  - unfold count_events. simpl. lia.
  - lia.
  - destruct model; unfold count_events; simpl; lia.
  - unfold count_events. simpl. rewrite is_verdict_verdict_for. simpl. lia.
  - change (ModelPredict df :: verdict_for prediction
              :: StExpander "See processed data sent to model"
              :: StDataframe df :: trace_of (surface e))
      with ([ModelPredict df; verdict_for prediction;
             StExpander "See processed data sent to model"; StDataframe df]
              ++ trace_of (surface e)).
    rewrite count_events_app, count_verdicts_surface.
    unfold count_events. simpl. rewrite is_verdict_verdict_for. simpl. lia.
Qed.

(** X6.  In every row preprocessing returns, the amount, hour, day and
    month are the form's values unchanged, the distance is geodesic's
    kilometres or the fallback 0, and merchant, category, gender and card
    number have become integers: no cell is a string any more. *)
Theorem processed_row_cells encoder f df :
  result_of (preprocess' encoder f) = Ret df ->
  exists m c g,
    df = [("merchant", VInt m); ("category", VInt c); ("amt", VFloat (amt f));
          ("distance", distance_cell geodesic f);
          ("hour", VInt (hour f)); ("day", VInt (day f));
          ("month", VInt (month f)); ("gender", VInt g);
          ("cc_num", VInt (py_hash (VStr (cc_num f)) mod 100))].
Proof.
  intros H. destruct (preprocess_ret_full geodesic py_hash _ _ _ H) as (m & c & g & Hfull).
  exists m, c, g. rewrite Hfull in H. injection H as <-. reflexivity.
Qed.

(** X16.  Preprocessing that returns a row has made exactly five calls, in
    this order: one to geodesic with the user's pair first, one to build the
    frame from the raw form, and one to each of the merchant, category and
    gender encoders with the string the form submitted. *)
Theorem preprocess_calls_in_order encoder f df :
  result_of (preprocess' encoder f) = Ret df ->
  trace_of (preprocess' encoder f)
  = [Geodesic (lat f, long f) (merch_lat f, merch_long f);
     PdDataFrame (input_row f (distance_cell geodesic f));
     LeTransform "merchant" (VStr (merchant f));
     LeTransform "category" (VStr (category f));
     LeTransform "gender" (VStr (gender_label (gender f)))].
Proof.
  intros H. destruct (preprocess_ret_full geodesic py_hash _ _ _ H) as (m & c & g & Hfull).
  rewrite Hfull. reflexivity.
Qed.

(** X7.  Coordinates that geodesic refuses with a [ValueError] do not stop
    a submission: preprocessing still returns a row, its distance cell is
    0, and the verdict for whatever label the classifier returns for that
    row is shown. *)
Theorem refused_coordinates_still_predict clf enc f e :
  geodesic (lat f, long f) (merch_lat f, merch_long f) = Raise e ->
  isinstance e ValueError = true ->
  (forall c, c ∈ categorical_col ->
     exists le, enc !! c = Some le /\ handled le (categorical_value f c)) ->
  required_fields_filled f = true ->
  exists df,
    result_of (preprocess' (Some enc) f) = Ret df
    /\ getitem "distance" df = Some (VInt 0)
    /\ forall prediction,
         result_of (predict_first (Some clf) df) = Ret prediction ->
         verdict_for prediction ∈ trace_of (on_submit' (Some clf) (Some enc) f).
Proof.
  intros Hg Hv Hall Hf.
  destruct (preprocess_returns geodesic py_hash enc f) as [df Hpre].
  { unfold distance_available. rewrite Hg. exact Hv. }
  { exact Hall. }
  exists df. split; [exact Hpre |]. split.
  - destruct (preprocess_ret_full geodesic py_hash _ _ _ Hpre) as (m & c & g & Hfull).
    rewrite Hfull in Hpre. injection Hpre as <-.
    unfold distance_cell. rewrite Hg. reflexivity.
  - intros prediction Hp.
    destruct (on_submit_verdict_trace geodesic py_hash st_dataframe
                _ _ _ _ _ Hf Hpre Hp) as (tail & -> & _).
    apply elem_of_app. right. apply list_elem_of_further, list_elem_of_here.
Qed.

(** X8.  If the encoder dictionary has no entry for merchant, category or
    gender, no submission gets through preprocessing: the classifier is
    never called and no verdict is shown. *)
Theorem missing_encoder_blocks_prediction model enc f col :
  col ∈ categorical_col -> enc !! col = None ->
  (forall df, result_of (preprocess' (Some enc) f) <> Ret df)
  /\ (forall df, ModelPredict df ∉ trace_of (on_submit' model (Some enc) f))
  /\ (forall ev, is_verdict ev = true ->
                 ev ∉ trace_of (on_submit' model (Some enc) f)).
Proof.
  intros Hin Hnone.
  assert (forall df, result_of (preprocess' (Some enc) f) <> Ret df) as Hno.
  { intros df Hpre.
    apply preprocess_ret_inv in Hpre as (distance & encoded & cc & _ & Hloop & _).
    destruct (for_each_encode_ret_lookup _ _ _ _ _ Hin Hloop) as (d & le & [= <-] & Hle).
    congruence. }
  split; [exact Hno |]. split.
  - intros df Hmp.
    exact (Hno df (model_predict_in_on_submit geodesic py_hash st_dataframe _ _ _ _ Hmp)).
  - intros ev Hv Hev.
    destruct (element_in_on_submit geodesic py_hash st_dataframe _ _ _ _
                (is_verdict_element _ Hv) Hev)
      as [_ [[_ ->] | [[_ [e ->]] | [_ (df & prediction & Hpre & _)]]]];
      try discriminate.
    exact (Hno df Hpre).
Qed.

(** X9.  A classifier that returns no label at all is an error like any
    other: the handler shows the generic message with the text of the
    [IndexError] and no verdict, and ends normally. *)
Theorem empty_prediction_is_generic_error clf enc f df :
  required_fields_filled f = true ->
  result_of (preprocess' (Some enc) f) = Ret df ->
  clf_predict clf df = Ret [] ->
  on_submit' (Some clf) (Some enc) f
  = (trace_of (preprocess' (Some enc) f)
       ++ [ModelPredict df;
           StError "An error occurred during prediction: index 0 is out of bounds for axis 0 with size 0" None],
     Ret tt).
Proof.
  intros Hf Hpre Hnone.
  assert (predict_first (Some clf) df
          = ([ModelPredict df],
             Raise (Exn IndexError "index 0 is out of bounds for axis 0 with size 0")))
    as Hp by (unfold predict_first; rewrite Hnone; reflexivity).
  pose proof (submission_body_predict_raises geodesic py_hash st_dataframe
                (Some clf) _ _ _ _ Hpre (f_equal snd Hp)) as Hbody.
  rewrite (on_submit_exception geodesic py_hash st_dataframe (Some clf) (Some enc) f
             (Exn IndexError "index 0 is out of bounds for axis 0 with size 0")
             eq_refl (preprocess_ret_truthy _ _ _ _ _ Hpre) Hf)
    by (try rewrite Hbody; reflexivity).
  rewrite Hbody, Hp. simpl trace_of. rewrite <- app_assoc. reflexivity.
Qed.

End MoreOfTheHandler.

(** X15.  The distance function calls geodesic exactly once, with the first
    pair first, and never raises a [ValueError]: an exception that does
    come out of it is one geodesic raised that is not a [ValueError]. *)
Theorem haversine_never_raises_value_error
    (geodesic : point -> point -> result float) (lat1 lon1 lat2 lon2 : float) :
  trace_of (haversine geodesic lat1 lon1 lat2 lon2)
  = [Geodesic (lat1, lon1) (lat2, lon2)]
  /\ match result_of (haversine geodesic lat1 lon1 lat2 lon2) with
     | Ret _ => True
     | Raise e => isinstance e ValueError = false
                  /\ geodesic (lat1, lon1) (lat2, lon2) = Raise e
     end.
Proof.
  split; [apply haversine_trace |].
  destruct (geodesic (lat1, lon1) (lat2, lon2)) as [km|e] eqn:Hg.
  - rewrite (haversine_returns _ _ _ _ _ _ Hg). exact I.
  - destruct (isinstance e ValueError) eqn:Hv.
    + rewrite (haversine_rejected _ _ _ _ _ _ Hg Hv). exact I.
    + rewrite (haversine_raises _ _ _ _ _ _ Hg Hv). simpl. split; [exact Hv | reflexivity].
Qed.

(** ** Loading, run after run *)

Lemma load_models_body_ok d clf enc :
  joblib_load_model d = Ret clf -> joblib_load_encoder d = Ret enc ->
  load_models_body d
  = ([JoblibLoad model_path; JoblibLoad encoder_path], Ret (Some clf, Some enc)).
Proof.
  intros Hm He. unfold load_models_body, try_except. py_unfold. simpl.
  rewrite Hm. simpl. rewrite He. reflexivity.
Qed.

Lemma load_models_body_fails d e :
  isinstance e FileNotFoundError = false ->
  joblib_load_model d = Raise e
  \/ (exists clf, joblib_load_model d = Ret clf /\ joblib_load_encoder d = Raise e) ->
  exists calls,
    (calls = [JoblibLoad model_path]
     \/ calls = [JoblibLoad model_path; JoblibLoad encoder_path])
    /\ load_models_body d = (calls, Raise e).
Proof.
  intros Hfnf [Hm | (clf & Hm & He)]; unfold load_models_body, try_except;
    py_unfold; simpl; rewrite Hm; simpl.
  - exists [JoblibLoad model_path]. split; [left; reflexivity |].
    rewrite Hfnf. reflexivity.
  - exists [JoblibLoad model_path; JoblibLoad encoder_path].
    split; [right; reflexivity |]. rewrite He. simpl. rewrite Hfnf. reflexivity.
Qed.

(** The three ways loading can go. *)
Lemma load_models_body_cases d :
  (exists clf enc,
     load_models_body d
     = ([JoblibLoad model_path; JoblibLoad encoder_path], Ret (Some clf, Some enc)))
  \/ (exists calls,
        (calls = [JoblibLoad model_path]
         \/ calls = [JoblibLoad model_path; JoblibLoad encoder_path])
        /\ load_models_body d
           = (calls ++ [StError loader_message None], Ret (None, None)))
  \/ (exists calls e,
        (calls = [JoblibLoad model_path]
         \/ calls = [JoblibLoad model_path; JoblibLoad encoder_path])
        /\ load_models_body d = (calls, Raise e)).
Proof.
  destruct (joblib_load_model d) as [clf|e] eqn:Hm.
  - destruct (joblib_load_encoder d) as [enc|e] eqn:He.
    + left. exists clf, enc. exact (load_models_body_ok _ _ _ Hm He).
    + destruct (isinstance e FileNotFoundError) eqn:Hfnf.
      * right. left. apply load_models_body_missing. right. eauto.
      * right. right. destruct (load_models_body_fails d e Hfnf) as (calls & Hc & Hb);
          [right; eauto | eauto].
  - destruct (isinstance e FileNotFoundError) eqn:Hfnf.
    + right. left. apply load_models_body_missing. left. eauto.
    + right. right. destruct (load_models_body_fails d e Hfnf) as (calls & Hc & Hb);
        [left; exact Hm | eauto].
Qed.

Section Runs.

Variable geodesic : point -> point -> result float.
Variable py_hash : pyval -> Z.
Variable st_dataframe : dataframe -> result unit.

Abbreviation on_submit' := (on_submit geodesic py_hash st_dataframe).
Abbreviation run' := (run geodesic py_hash st_dataframe).
Abbreviation serve' := (serve geodesic py_hash st_dataframe).

(** What a run does after loading, given the pair it loaded. *)
Abbreviation handle v f :=
  (if submitted f then on_submit' (fst v) (snd v) f else mret tt).

Lemma run_warm entry d f :
  run' (Some entry) d f
  = ((cached_elements entry ++ trace_of (handle (cached_value entry) f),
      outcome_of (result_of (handle (cached_value entry) f))),
     Some entry).
Proof.
  unfold run, script, load_models. destruct (cached_value entry) as [model encoder].
  rewrite bind_pair_ret. reflexivity.
Qed.

Lemma run_cold_returns d f v :
  result_of (load_models_body d) = Ret v ->
  run' None d f
  = ((trace_of (load_models_body d) ++ trace_of (handle v f),
      outcome_of (result_of (handle v f))),
     Some (CacheEntry v (filter (fun ev => is_element ev = true)
                           (trace_of (load_models_body d))))).
Proof.
  intros Hv. unfold run, script, load_models. rewrite Hv.
  destruct (load_models_body d) as [tr r]. simpl in Hv. subst r.
  destruct v as [model encoder]. rewrite bind_pair_ret. reflexivity.
Qed.

Lemma run_cold_raises d f e :
  result_of (load_models_body d) = Raise e ->
  run' None d f = ((trace_of (load_models_body d), outcome_of (Raise e)), None).
Proof.
  intros He. unfold run, script, load_models. rewrite He.
  destruct (load_models_body d) as [tr r]. simpl in He. subst r. reflexivity.
Qed.

End Runs.

Lemma element_not_joblib_load ev : is_element ev = true -> is_joblib_load ev = false.
Proof. destruct ev; simpl; congruence. Qed.

Lemma preprocess_event_not_joblib_load ev :
  is_preprocess_event ev = true -> is_joblib_load ev = false.
Proof. destruct ev; simpl; congruence. Qed.

Lemma load_models_body_loading_only d :
  Forall (fun ev => loading_only ev = true) (trace_of (load_models_body d)).
Proof.
  destruct (load_models_body_cases d)
    as [(clf & enc & ->) | [(calls & [-> | ->] & ->) | (calls & e & [-> | ->] & ->)]];
    repeat constructor.
Qed.

Section Serving.

Variable geodesic : point -> point -> result float.
Variable py_hash : pyval -> Z.
Variable st_dataframe : dataframe -> result unit.

Abbreviation on_submit' := (on_submit geodesic py_hash st_dataframe).
Abbreviation run' := (run geodesic py_hash st_dataframe).
Abbreviation serve' := (serve geodesic py_hash st_dataframe).
Abbreviation handle v f :=
  (if submitted f then on_submit' (fst v) (snd v) f else mret tt).

Lemma on_submit_no_joblib_load model encoder f :
  Forall (fun ev => is_joblib_load ev = false) (trace_of (on_submit' model encoder f)).
Proof.
  assert (Forall (fun ev => is_joblib_load ev = false)
            (trace_of (preprocess geodesic py_hash encoder f))) as Hpre.
  { eapply Forall_impl; [apply preprocess_trace_kind |].
    exact preprocess_event_not_joblib_load. }
  assert (forall e, Forall (fun ev => is_joblib_load ev = false) (trace_of (surface e)))
    as Hsurface.
  { intros e. destruct (surface_trace e) as [-> | ->]; repeat constructor. }
  assert (forall prediction, is_joblib_load (verdict_for prediction) = false) as Hverdict.
  { intros prediction. unfold verdict_for. destruct (py_eq_int prediction 1); reflexivity. }
  destruct (on_submit_view geodesic py_hash st_dataframe model encoder f);
    simpl trace_of.
  - constructor.
  - repeat constructor.
  - apply Forall_app. split; [exact Hpre | apply Hsurface].
  - rewrite !Forall_app, predict_first_trace.
    split; [exact Hpre |]. split; [| apply Hsurface].
    destruct model; repeat constructor.
  - apply Forall_app. split; [exact Hpre |].
    repeat (constructor; [reflexivity || apply Hverdict |]). constructor.
  - apply Forall_app. split; [exact Hpre |].
    repeat (constructor; [reflexivity || apply Hverdict |]). apply Hsurface.
Qed.

Lemma handle_no_joblib_load v f :
  Forall (fun ev => is_joblib_load ev = false) (trace_of (handle v f)).
Proof. destruct (submitted f); [apply on_submit_no_joblib_load | constructor]. Qed.

Lemma serve_warm_no_joblib_load entry (rest : list (disk * form_input)) :
  Forall (fun ev => is_joblib_load ev = false) (cached_elements entry) ->
  Forall (fun r => Forall (fun ev => is_joblib_load ev = false) (fst r))
         (fst (serve' (Some entry) rest)).
Proof.
  intros Hentry. induction rest as [|[d f] rest IH]; [constructor |].
  rewrite serve_cons, run_warm. cbn [fst snd]. constructor; [| exact IH].
  cbn [fst]. apply Forall_app. split; [exact Hentry | apply handle_no_joblib_load].
Qed.

(** X11.  Once a run has got an answer out of [load_models], the pair or
    the empty pair, no later run of the process calls [joblib.load] again,
    whatever is on disk by then and whatever is submitted. *)
Theorem artifacts_loaded_at_most_once d f rest v :
  result_of (load_models_body d) = Ret v ->
  Forall (fun r => Forall (fun ev => is_joblib_load ev = false) (fst r))
         (fst (serve' (snd (run' None d f)) rest)).
Proof.
  intros Hv. rewrite (run_cold_returns _ _ _ _ _ _ Hv). cbn [snd].
  apply serve_warm_no_joblib_load. cbn [cached_elements].
  apply Forall_forall. intros ev Hin. apply list_elem_of_filter in Hin as [Hel _].
  exact (element_not_joblib_load _ Hel).
Qed.

(** X12.  A loading failure other than a missing file ends the run before
    the form is handled, with nothing on the page, and leaves nothing
    cached: the process goes on exactly as if that run had not happened,
    and the next run loads again. *)
Theorem failed_load_is_not_cached d f rest e :
  isinstance e FileNotFoundError = false ->
  joblib_load_model d = Raise e
  \/ (exists clf, joblib_load_model d = Ret clf /\ joblib_load_encoder d = Raise e) ->
  exists calls,
    (calls = [JoblibLoad model_path]
     \/ calls = [JoblibLoad model_path; JoblibLoad encoder_path])
    /\ fst (serve' None ((d, f) :: rest))
       = (calls, outcome_of (Raise e)) :: fst (serve' None rest)
    /\ snd (serve' None ((d, f) :: rest)) = snd (serve' None rest).
Proof.
  intros Hfnf Hraise.
  destruct (load_models_body_fails d e Hfnf Hraise) as (calls & Hcalls & Hbody).
  exists calls. split; [exact Hcalls |].
  rewrite serve_cons.
  rewrite (run_cold_raises geodesic py_hash st_dataframe d f e)
    by (rewrite Hbody; reflexivity).
  rewrite Hbody. split; reflexivity.
Qed.

Lemma run_cache_ok cache d f : cache_ok cache -> cache_ok (snd (run' cache d f)).
Proof.
  intros Hok. destruct cache as [entry|].
  - rewrite run_warm. exact Hok.
  - destruct (load_models_body_cases d)
      as [(clf & enc & Hb) | [(calls & Hc & Hb) | (calls & e & Hc & Hb)]].
    + rewrite (run_cold_returns _ _ _ d f (Some clf, Some enc))
        by (rewrite Hb; reflexivity).
      rewrite Hb. right. right. exists clf, enc. reflexivity.
    + rewrite (run_cold_returns _ _ _ d f (None, None)) by (rewrite Hb; reflexivity).
      rewrite Hb. right. left. destruct Hc as [-> | ->]; reflexivity.
    + rewrite (run_cold_raises _ _ _ d f e) by (rewrite Hb; reflexivity).
      left. reflexivity.
Qed.

Lemma serve_cache_ok (requests : list (disk * form_input)) : forall cache,
  cache_ok cache -> cache_ok (snd (serve' cache requests)).
Proof.
  induction requests as [|[d f] rest IH]; intros cache Hok; [exact Hok |].
  rewrite serve_cons. cbn [snd]. apply IH, run_cache_ok, Hok.
Qed.

(** X13.  However many runs a process serves and whatever they load, its
    cache is empty, or holds the empty pair with the loader's message, or
    holds a classifier together with an encoder dictionary and no message:
    never one of the two without the other. *)
Theorem cache_holds_both_or_neither (requests : list (disk * form_input)) :
  cache_ok (snd (serve' None requests)).
Proof. apply serve_cache_ok. left. reflexivity. Qed.

Lemma run_unsubmitted_loading_only cache d f :
  cache_ok cache -> submitted f = false ->
  Forall (fun ev => loading_only ev = true) (fst (fst (run' cache d f))).
Proof.
  intros Hok Hsub. destruct cache as [entry|].
  - rewrite run_warm, Hsub. cbn [fst]. rewrite app_nil_r.
    destruct Hok as [[=] | [[= ->] | (clf & enc & [= ->])]]; repeat constructor.
  - pose proof (load_models_body_loading_only d) as Hload.
    destruct (result_of (load_models_body d)) as [v|e] eqn:Hr.
    + rewrite (run_cold_returns _ _ _ _ _ _ Hr), Hsub. cbn [fst].
      rewrite app_nil_r. exact Hload.
    + rewrite (run_cold_raises _ _ _ _ _ _ Hr). exact Hload.
Qed.

Lemma serve_unsubmitted_loading_only (requests : list (disk * form_input)) :
  forall cache, cache_ok cache ->
  Forall2 (fun req r => submitted (snd req) = false ->
                        Forall (fun ev => loading_only ev = true) (fst r))
          requests (fst (serve' cache requests)).
Proof.
  induction requests as [|[d f] rest IH]; intros cache Hok.
  - constructor.
  - rewrite serve_cons. cbn [fst]. constructor.
    + cbn [snd]. intros Hsub. exact (run_unsubmitted_loading_only _ _ _ Hok Hsub).
    + apply IH, run_cache_ok, Hok.
Qed.

(** X14.  Nothing is computed before the button is pressed: in any
    sequence of runs of a process, a run without a submission makes no call
    to geodesic, the encoders or the classifier and shows no verdict and no
    validation message; all it can leave are calls to [joblib.load] and the
    loader's message. *)
Theorem unsubmitted_runs_only_load (requests : list (disk * form_input)) :
  Forall2 (fun req r => submitted (snd req) = false ->
                        Forall (fun ev => loading_only ev = true) (fst r))
          requests (fst (serve' None requests)).
Proof. apply serve_unsubmitted_loading_only. left. reflexivity. Qed.

(** X10.  An encoder file that holds an empty dictionary counts as no
    encoder: the first submission loads both files, is stopped by the guard
    of line 93, and leaves the page without any message at all, although
    both objects are now cached. *)
Theorem empty_encoder_dictionary_stops_silently d f clf :
  joblib_load_model d = Ret clf -> joblib_load_encoder d = Ret ∅ ->
  submitted f = true ->
  run' None d f
  = (([JoblibLoad model_path; JoblibLoad encoder_path], Stopped),
     Some (CacheEntry (Some clf, Some ∅) [])).
Proof.
  intros Hm He Hsub.
  pose proof (load_models_body_ok _ _ _ Hm He) as Hbody.
  rewrite (run_cold_returns _ _ _ d f (Some clf, Some ∅)) by (rewrite Hbody; reflexivity).
  rewrite Hbody, Hsub. cbn [fst snd].
  rewrite (on_submit_not_loaded geodesic py_hash st_dataframe (Some clf) (Some ∅) f)
    by reflexivity.
  reflexivity.
Qed.

End Serving.

(** ** How much of a card number survives *)

(** Among the elements of a duplicate-free list, two are sent to the same
    value or all are sent to different ones. *)
Lemma collision_or_NoDup {A} (h : A -> Z) (l : list A) :
  NoDup l ->
  (exists x y, x ∈ l /\ y ∈ l /\ x <> y /\ h x = h y) \/ NoDup (h <$> l).
Proof.
  induction 1 as [|a l Hfresh Hnd IH]; [right; constructor |].
  destruct IH as [(x & y & Hx & Hy & Hne & Heq) | Himg].
  - left. exists x, y. repeat split; try assumption; apply list_elem_of_further; assumption.
  - destruct (decide (h a ∈ h <$> l)) as [Hin | Hnotin].
    + left. apply list_elem_of_fmap in Hin as (y & Heq & Hy).
      exists a, y. repeat split.
      * apply list_elem_of_here.
      * apply list_elem_of_further, Hy.
      * intros ->. contradiction.
      * exact Heq.
    + right. rewrite fmap_cons. apply NoDup_cons. split; assumption.
Qed.

Lemma pigeonhole_mod_100 {A} (h : A -> Z) (l : list A) :
  NoDup l -> (100 < length l)%nat ->
  exists x y, x ∈ l /\ y ∈ l /\ x <> y /\ h x mod 100 = h y mod 100.
Proof.
  intros Hnd Hlen.
  destruct (collision_or_NoDup (fun x => h x mod 100) l Hnd) as [Hcol | Himg];
    [exact Hcol |].
  exfalso.
  assert ((fun x => h x mod 100) <$> l ⊆+ seqZ 0 100) as Hsub.
  { apply NoDup_submseteq; [exact Himg |].
    intros z Hz. apply list_elem_of_fmap in Hz as (x & -> & _).
    apply elem_of_seqZ. pose proof (Z.mod_pos_bound (h x) 100). lia. }
  apply submseteq_length in Hsub. rewrite length_fmap, length_seqZ in Hsub. lia.
Qed.

(** X17.  The card number is cut down to one of a hundred values: among
    any 101 different card numbers there are two that no row can tell
    apart, whatever else was submitted with them. *)
Theorem card_cells_collide (geodesic : point -> point -> result float)
    (py_hash : pyval -> Z) (cards : list string) :
  NoDup cards -> (100 < length cards)%nat ->
  exists c1 c2,
    c1 ∈ cards /\ c2 ∈ cards /\ c1 <> c2
    /\ forall enc1 enc2 f1 f2 df1 df2,
         cc_num f1 = c1 -> cc_num f2 = c2 ->
         result_of (preprocess geodesic py_hash enc1 f1) = Ret df1 ->
         result_of (preprocess geodesic py_hash enc2 f2) = Ret df2 ->
         getitem "cc_num" df1 = getitem "cc_num" df2.
Proof.
  intros Hnd Hlen.
  destruct (pigeonhole_mod_100 (fun c => py_hash (VStr c)) cards Hnd Hlen)
    as (c1 & c2 & H1 & H2 & Hne & Heq).
  exists c1, c2. repeat split; try assumption.
  intros enc1 enc2 f1 f2 df1 df2 <- <- Hp1 Hp2.
  rewrite (preprocess_cc_num _ _ _ _ _ Hp1), (preprocess_cc_num _ _ _ _ _ Hp2).
  rewrite Heq. reflexivity.
Qed.

(** * The further properties in the sample world *)

Lemma verdict_only_after_prediction_witness :
  is_verdict legitimate_verdict = true
  /\ legitimate_verdict
     ∈ trace_of (sample_on_submit (Some Sample.model) (Some Sample.encoder) Sample.acme)
  /\ artifacts_loaded (Some Sample.model) (Some Sample.encoder) = true
  /\ required_fields_filled Sample.acme = true
  /\ exists df prediction,
       result_of (sample_preprocess (Some Sample.encoder) Sample.acme) = Ret df
       /\ result_of (predict_first (Some Sample.model) df) = Ret prediction
       /\ legitimate_verdict = verdict_for prediction.
Proof.
  assert (legitimate_verdict
          ∈ trace_of (sample_on_submit (Some Sample.model) (Some Sample.encoder)
                        Sample.acme)) as Hin
    by (vm_compute; repeat constructor).
  split; [reflexivity |]. split; [exact Hin |].
  exact (verdict_only_after_prediction Sample.geodesic Sample.py_hash
           Sample.st_dataframe (Some Sample.model) (Some Sample.encoder) Sample.acme
           legitimate_verdict eq_refl Hin).
Defined.

Lemma displayed_row_is_predicted_row_witness :
  StDataframe Edge.acme_row
  ∈ trace_of (sample_on_submit (Some Sample.model) (Some Sample.encoder) Sample.acme)
  /\ result_of (sample_preprocess (Some Sample.encoder) Sample.acme) = Ret Edge.acme_row
  /\ ModelPredict Edge.acme_row
     ∈ trace_of (sample_on_submit (Some Sample.model) (Some Sample.encoder) Sample.acme).
Proof.
  assert (StDataframe Edge.acme_row
          ∈ trace_of (sample_on_submit (Some Sample.model) (Some Sample.encoder)
                        Sample.acme)) as Hin
    by (vm_compute; repeat constructor).
  split; [exact Hin |].
  exact (displayed_row_is_predicted_row Sample.geodesic Sample.py_hash
           Sample.st_dataframe (Some Sample.model) (Some Sample.encoder) Sample.acme
           Edge.acme_row Hin).
Defined.

Lemma processed_row_cells_witness :
  result_of (sample_preprocess (Some Sample.encoder) Sample.acme) = Ret Edge.acme_row
  /\ exists m c g,
       Edge.acme_row
       = [("merchant", VInt m); ("category", VInt c); ("amt", VFloat 45.5);
          ("distance", distance_cell Sample.geodesic Sample.acme);
          ("hour", VInt 14); ("day", VInt 5); ("month", VInt 3); ("gender", VInt g);
          ("cc_num", VInt (Sample.py_hash (VStr "4111111111111111") mod 100))].
Proof.
  split; [reflexivity |].
  exact (processed_row_cells Sample.geodesic Sample.py_hash (Some Sample.encoder)
           Sample.acme Edge.acme_row eq_refl).
Defined.

Lemma preprocess_calls_in_order_witness :
  result_of (sample_preprocess (Some Sample.encoder) Sample.hooli)
  = Ret (setitem "merchant" (VInt (-1)) Edge.acme_row)
  /\ trace_of (sample_preprocess (Some Sample.encoder) Sample.hooli)
     = [Geodesic (40%float, (-73)%float) (40.1%float, (-73.1)%float);
        PdDataFrame (input_row Sample.hooli (distance_cell Sample.geodesic Sample.hooli));
        LeTransform "merchant" (VStr "Hooli");
        LeTransform "category" (VStr "grocery");
        LeTransform "gender" (VStr "Male")].
Proof.
  split; [reflexivity |].
  exact (preprocess_calls_in_order Sample.geodesic Sample.py_hash (Some Sample.encoder)
           Sample.hooli _ eq_refl).
Defined.

Lemma fitted_handles classes v : handled (Sample.fitted classes) v.
Proof.
  unfold handled, Sample.fitted. cbn [le_transform].
  destruct v as [s | z | x]; [destruct (Sample.index_of s classes 0) | |];
    exact I || reflexivity.
Qed.

Lemma sample_encoder_handles f c :
  c ∈ categorical_col ->
  exists le, Sample.encoder !! c = Some le /\ handled le (categorical_value f c).
Proof.
  unfold categorical_col. rewrite !elem_of_cons, elem_of_nil.
  intros [-> | [-> | [-> | []]]]; eexists; (split; [reflexivity | apply fitted_handles]).
Qed.

Lemma refused_coordinates_still_predict_witness :
  Sample.geodesic (200%float, (-73)%float) (40.1%float, (-73.1)%float)
  = Raise (Exn ValueError "Latitude must be in the [-90; 90] range.")
  /\ required_fields_filled Edge.off_the_map = true
  /\ exists df,
       result_of (sample_preprocess (Some Sample.encoder) Edge.off_the_map) = Ret df
       /\ getitem "distance" df = Some (VInt 0)
       /\ forall prediction,
            result_of (predict_first (Some Sample.model) df) = Ret prediction ->
            verdict_for prediction
            ∈ trace_of (sample_on_submit (Some Sample.model) (Some Sample.encoder)
                          Edge.off_the_map).
Proof.
  split; [reflexivity |]. split; [reflexivity |].
  exact (refused_coordinates_still_predict Sample.geodesic Sample.py_hash
           Sample.st_dataframe Sample.model Sample.encoder Edge.off_the_map
           (Exn ValueError "Latitude must be in the [-90; 90] range.")
           eq_refl eq_refl (sample_encoder_handles Edge.off_the_map) eq_refl).
Defined.

Lemma missing_encoder_blocks_prediction_witness :
  "category" ∈ categorical_col
  /\ Edge.encoder_without_category !! "category" = None
  /\ (forall df,
        result_of (sample_preprocess (Some Edge.encoder_without_category) Sample.acme)
        <> Ret df)
  /\ (forall df,
        ModelPredict df
        ∉ trace_of (sample_on_submit (Some Sample.model)
                      (Some Edge.encoder_without_category) Sample.acme))
  /\ (forall ev, is_verdict ev = true ->
        ev ∉ trace_of (sample_on_submit (Some Sample.model)
                         (Some Edge.encoder_without_category) Sample.acme)).
Proof.
  assert ("category" ∈ categorical_col) as Hc
    by apply list_elem_of_further, list_elem_of_here.
  split; [exact Hc |]. split; [reflexivity |].
  exact (missing_encoder_blocks_prediction Sample.geodesic Sample.py_hash
           Sample.st_dataframe (Some Sample.model) Edge.encoder_without_category
           Sample.acme "category" Hc eq_refl).
Defined.

Lemma empty_prediction_is_generic_error_witness :
  required_fields_filled Sample.acme = true
  /\ result_of (sample_preprocess (Some Sample.encoder) Sample.acme) = Ret Edge.acme_row
  /\ clf_predict Edge.silent_model Edge.acme_row = Ret []
  /\ sample_on_submit (Some Edge.silent_model) (Some Sample.encoder) Sample.acme
     = (trace_of (sample_preprocess (Some Sample.encoder) Sample.acme)
          ++ [ModelPredict Edge.acme_row;
              StError "An error occurred during prediction: index 0 is out of bounds for axis 0 with size 0" None],
        Ret tt).
Proof.
  split; [reflexivity |]. split; [reflexivity |]. split; [reflexivity |].
  exact (empty_prediction_is_generic_error Sample.geodesic Sample.py_hash
           Sample.st_dataframe Edge.silent_model Sample.encoder Sample.acme
           Edge.acme_row eq_refl eq_refl eq_refl).
Defined.

Lemma empty_encoder_dictionary_stops_silently_witness :
  joblib_load_encoder Edge.disk_empty_encoder = Ret ∅
  /\ submitted Sample.acme = true
  /\ sample_run None Edge.disk_empty_encoder Sample.acme
     = (([JoblibLoad model_path; JoblibLoad encoder_path], Stopped),
        Some (CacheEntry (Some Sample.model, Some ∅) [])).
Proof.
  split; [reflexivity |]. split; [reflexivity |].
  exact (empty_encoder_dictionary_stops_silently Sample.geodesic Sample.py_hash
           Sample.st_dataframe Edge.disk_empty_encoder Sample.acme Sample.model
           eq_refl eq_refl eq_refl).
Defined.

Lemma artifacts_loaded_at_most_once_witness :
  result_of (load_models_body Sample.disk_ok)
  = Ret (Some Sample.model, Some Sample.encoder)
  /\ Forall (fun r => Forall (fun ev => is_joblib_load ev = false) (fst r))
       (fst (serve Sample.geodesic Sample.py_hash Sample.st_dataframe
               (snd (sample_run None Sample.disk_ok Sample.acme))
               [(Sample.disk_missing, Sample.acme_large);
                (Sample.disk_corrupt, Sample.no_merchant)])).
Proof.
  split; [reflexivity |].
  exact (artifacts_loaded_at_most_once Sample.geodesic Sample.py_hash
           Sample.st_dataframe Sample.disk_ok Sample.acme
           [(Sample.disk_missing, Sample.acme_large);
            (Sample.disk_corrupt, Sample.no_merchant)]
           (Some Sample.model, Some Sample.encoder) eq_refl).
Defined.

Lemma failed_load_is_not_cached_witness :
  isinstance (Exn Exception_ "invalid load key") FileNotFoundError = false
  /\ joblib_load_model Sample.disk_corrupt = Raise (Exn Exception_ "invalid load key")
  /\ exists calls,
       (calls = [JoblibLoad model_path]
        \/ calls = [JoblibLoad model_path; JoblibLoad encoder_path])
       /\ fst (serve Sample.geodesic Sample.py_hash Sample.st_dataframe None
                 [(Sample.disk_corrupt, Sample.acme); (Sample.disk_ok, Sample.acme)])
          = (calls, outcome_of (Raise (Exn Exception_ "invalid load key")))
            :: fst (serve Sample.geodesic Sample.py_hash Sample.st_dataframe None
                      [(Sample.disk_ok, Sample.acme)])
       /\ snd (serve Sample.geodesic Sample.py_hash Sample.st_dataframe None
                 [(Sample.disk_corrupt, Sample.acme); (Sample.disk_ok, Sample.acme)])
          = snd (serve Sample.geodesic Sample.py_hash Sample.st_dataframe None
                   [(Sample.disk_ok, Sample.acme)]).
Proof.
  split; [reflexivity |]. split; [reflexivity |].
  exact (failed_load_is_not_cached Sample.geodesic Sample.py_hash Sample.st_dataframe
           Sample.disk_corrupt Sample.acme [(Sample.disk_ok, Sample.acme)]
           (Exn Exception_ "invalid load key") eq_refl (or_introl eq_refl)).
Defined.

Lemma card_cells_collide_witness :
  NoDup Edge.cards
  /\ (100 < length Edge.cards)%nat
  /\ exists c1 c2,
       c1 ∈ Edge.cards /\ c2 ∈ Edge.cards /\ c1 <> c2
       /\ forall enc1 enc2 f1 f2 df1 df2,
            cc_num f1 = c1 -> cc_num f2 = c2 ->
            result_of (sample_preprocess enc1 f1) = Ret df1 ->
            result_of (sample_preprocess enc2 f2) = Ret df2 ->
            getitem "cc_num" df1 = getitem "cc_num" df2.
Proof.
  assert (NoDup Edge.cards) as Hnd
    by (apply (bool_decide_unpack (NoDup Edge.cards)); vm_compute; exact I).
  assert (100 < length Edge.cards)%nat as Hlen by (vm_compute; lia).
  split; [exact Hnd |]. split; [exact Hlen |].
  exact (card_cells_collide Sample.geodesic Sample.py_hash Edge.cards Hnd Hlen).
Defined.
